(** * USB-CAN Plus diagnostic tools: a shallow embedding and its properties

    The two Python scripts of the repository are embedded here:

    - [CAN/python/dev-tester/vscantester.py], the device tester
      (module [Vscantester]);
    - [CAN/python/vscandump.py], the frame dump tool (module [Vscandump]).

    Python values are modelled as the code uses them: [bytes] objects are
    lists of [Byte.byte], [str] objects are [string]s, integers are [Z] or
    [N], and an exception is a value of type [exn] carried by the [Raise]
    result.  Everything a script does to the outside world (serial port,
    child processes, files, standard output) goes through a state monad
    over an abstract operating system. *)

From Stdlib Require Import ZArith NArith List Bool Lia.
From Stdlib.Strings Require Import String Ascii Byte.
From Stdlib Require Import Decimal Hexadecimal DecimalString DecimalZ DecimalN
  HexadecimalN DecimalPos HexadecimalPos.
Import ListNotations.

Local Open Scope string_scope.
Local Open Scope Z_scope.

(** ** Python values and builtins *)

Module Py.

Abbreviation bytes := (list byte).

(** The exception classes the scripts can meet.  [SerialException] stands
    for pyserial's class and its subclasses; [SystemExit] is what
    [sys.exit] raises. *)
Inductive exn : Type :=
| SerialException (msg : string)
| BrokenPipeError (msg : string)
| FileNotFoundError (msg : string)
| OSError (msg : string)
| UnicodeDecodeError
| ValueError
| IndexError
| AttributeError
| TypeError
| SystemExit (code : Z).

(** The result of evaluating a Python expression or statement. *)
Inductive Res (A : Type) : Type :=
| Ok (a : A)
| Raise (e : exn).
Arguments Ok {A} a.
Arguments Raise {A} e.

Definition rbind {A B} (r : Res A) (k : A -> Res B) : Res B :=
  match r with
  | Ok a => k a
  | Raise e => Raise e
  end.

(** The exit status of the interpreter for the outcome of the script. *)
Definition exit_status {A} (r : Res A) : Z :=
  match r with
  | Ok _ => 0
  | Raise (SystemExit code) => code
  | Raise _ => 1
  end.

Definition is_Ok {A} (r : Res A) : bool :=
  match r with Ok _ => true | Raise _ => false end.

Definition CR : byte := x0d.
Definition BEL : byte := x07.

Definition code (b : byte) : Z := Z.of_N (Byte.to_N b).

Definition bytes_eqb (a b : bytes) : bool :=
  if list_eq_dec Byte.byte_eq_dec a b then true else false.

Definition py_len {A} (l : list A) : Z := Z.of_nat (List.length l).

(** [buf[i]]: a negative index counts from the end, an index out of range
    raises [IndexError]. *)
Definition py_index (buf : bytes) (i : Z) : Res byte :=
  let j := if i <? 0 then i + py_len buf else i in
  if (j <? 0) || (py_len buf <=? j) then Raise IndexError
  else match nth_error buf (Z.to_nat j) with
       | Some b => Ok b
       | None => Raise IndexError
       end.

(** A slice bound after Python's normalisation: [None] is the default,
    a negative bound counts from the end, and the result is clipped to
    [0 .. len]. *)
Definition slice_bound (len : Z) (dflt : Z) (b : option Z) : Z :=
  match b with
  | None => dflt
  | Some i =>
      let j := if i <? 0 then i + len else i in
      if j <? 0 then 0 else if len <? j then len else j
  end.

(** [buf[lo:hi]] *)
Definition py_slice {A} (buf : list A) (lo hi : option Z) : list A :=
  let len := py_len buf in
  let l := slice_bound len 0 lo in
  let h := slice_bound len len hi in
  firstn (Z.to_nat (h - l)) (skipn (Z.to_nat l) buf).

(** Truth value of [None] or a [bytes] object. *)
Definition truthy (v : option bytes) : bool :=
  match v with
  | None => false
  | Some [] => false
  | Some (_ :: _) => true
  end.

(** [b.decode('ascii')] *)
Definition decode_ascii (b : bytes) : Res string :=
  if forallb (fun x => code x <? 128) b
  then Ok (string_of_list_byte b)
  else Raise UnicodeDecodeError.

(** [s.encode('ascii')] for the literals of the scripts, all ASCII. *)
Definition encode_ascii (s : string) : bytes := list_byte_of_string s.

(** [str(n)], and [{n}] in an f-string, for an integer. *)
Definition str_of_int (z : Z) : string :=
  NilZero.string_of_int (Z.to_int z).

(** *** [int(b, 16)] on a [bytes] object

    After CPython's [PyLong_FromString]: white space is skipped on both
    sides, a sign and a [0x] prefix are optional, and single underscores may
    separate the digits. *)

Definition hex_digit_value (b : byte) : option Z :=
  let n := code b in
  if (48 <=? n) && (n <=? 57) then Some (n - 48)
  else if (97 <=? n) && (n <=? 102) then Some (n - 87)
  else if (65 <=? n) && (n <=? 70) then Some (n - 55)
  else None.

Definition is_space (b : byte) : bool :=
  let n := code b in
  ((9 <=? n) && (n <=? 13)) || (n =? 32).

Fixpoint lstrip (s : bytes) : bytes :=
  match s with
  | b :: t => if is_space b then lstrip t else s
  | [] => []
  end.

(** The digit loop: [prev_us] tells that the previous character was an
    underscore, [seen] that a character was consumed. *)
Fixpoint scan_digits (s : bytes) (prev_us seen : bool) (acc : Z)
  : option (Z * bytes) :=
  let finish := if prev_us then None
                else if seen then Some (acc, s) else None in
  match s with
  | b :: t =>
      match hex_digit_value b with
      | Some d => scan_digits t false true (16 * acc + d)
      | None =>
          if Byte.eqb b "_"%byte
          then if prev_us then None else scan_digits t true true acc
          else finish
      end
  | [] => finish
  end.

Definition py_int16 (s : bytes) : Res Z :=
  let s1 := lstrip s in
  let '(sign, s2) :=
    match s1 with
    | b :: t => if Byte.eqb b "+"%byte then (1, t)
                else if Byte.eqb b "-"%byte then (-1, t)
                else (1, s1)
    | [] => (1, s1)
    end in
  let s3 :=
    match s2 with
    | z :: x :: t =>
        if Byte.eqb z "0"%byte && (Byte.eqb x "x"%byte || Byte.eqb x "X"%byte)
        then match t with
             | u :: t' => if Byte.eqb u "_"%byte then t' else t
             | [] => t
             end
        else s2
    | _ => s2
    end in
  match s3 with
  | u :: _ =>
      if Byte.eqb u "_"%byte then Raise ValueError
      else match scan_digits s3 false false 0 with
           | Some (v, rest) =>
               match lstrip rest with
               | [] => Ok (sign * v)
               | _ :: _ => Raise ValueError
               end
           | None => Raise ValueError
           end
  | [] => Raise ValueError
  end.

(** *** Strings *)

Definition newline : ascii := "010"%char.
Definition nl : string := String newline EmptyString.

(** [needle in hay], and [hay.find(needle) != -1] *)
Fixpoint contains (needle hay : string) : bool :=
  String.prefix needle hay ||
  match hay with
  | EmptyString => false
  | String _ t => contains needle t
  end.

(** [s.split('\n')] *)
Fixpoint split_nl (s : string) : list string :=
  match s with
  | EmptyString => [EmptyString]
  | String c t =>
      if Ascii.eqb c newline then EmptyString :: split_nl t
      else match split_nl t with
           | h :: r => String c h :: r
           | [] => [String c EmptyString]
           end
  end.

(** [s.startswith(p)] *)
Definition startswith (s p : string) : bool := String.prefix p s.

End Py.

(** ** The device tester, [vscantester.py] *)

Module Vscantester.
Import Py.

Definition VSCAN_OK : bytes := [CR].
Definition VSCAN_KO : bytes := [BEL].

(** An entry of [serial.tools.list_ports]; [str(item)] is pyserial's
    [ListPortInfo.__str__]. *)
Record ListPortInfo : Type := {
  device : string;
  description : string
}.

Definition str_of_item (item : ListPortInfo) : string :=
  device item ++ " - " ++ description item.

(** What the process does to the outside world, in order. *)
Inductive event : Type :=
| EvPrint (text : string)
| EvOpen (url : string)
| EvWrite (port : string) (data : bytes)
| EvRead (port : string) (size : nat)
| EvClose (port : string)
| EvSpawn (argv : list string)
| EvIsFile (path : string)
| EvOpenFile (path : string)
| EvGrep (pattern : string).

Section Tester.

(** The operating system and the devices behind it: the state [World] of
    everything outside the process, the type [Handle] of an open serial
    port, and the library calls the script makes. *)
Context {World Handle : Type}.

Record OS : Type := {
  (** [sys.platform] *)
  sys_platform : string;
  (** [serial.serial_for_url(port, baudrate=3000000, timeout=1, rtscts=True)] *)
  serial_for_url : string -> World -> Res Handle * World;
  (** [ser_port.write(data)] *)
  serial_write : Handle -> bytes -> World -> Res unit * World;
  (** [ser_port.read(size)] *)
  serial_read : Handle -> nat -> World -> Res bytes * World;
  (** [ser_port.close()] *)
  serial_close : Handle -> World -> Res unit * World;
  (** [Popen(argv, stdout=PIPE, stderr=PIPE).communicate()[0]] *)
  popen_stdout : list string -> World -> Res bytes * World;
  (** [os.path.isfile(path)] *)
  isfile : string -> World -> bool;
  (** the lines of [open(path, "r")] *)
  open_lines : string -> World -> Res (list string) * World;
  (** [serial.tools.list_ports.grep(pattern)] *)
  list_ports_grep : string -> World -> Res (list ListPortInfo) * World
}.

Variable os : OS.

Record State : Type := {
  world : World;
  trace : list event
}.

(** *** The monad of the script: state and exceptions *)

Definition M (A : Type) : Type := State -> Res A * State.

Definition ret {A} (a : A) : M A := fun st => (Ok a, st).

Definition bind {A B} (m : M A) (k : A -> M B) : M B :=
  fun st =>
    match m st with
    | (Ok a, st') => k a st'
    | (Raise e, st') => (Raise e, st')
    end.

Definition raise {A} (e : exn) : M A := fun st => (Raise e, st).

(** [try: m  except ...: h], where [sel] picks the caught classes and gives
    the exception's text. *)
Definition try_except {A} (m : M A) (sel : exn -> option string)
  (h : string -> M A) : M A :=
  fun st =>
    match m st with
    | (Ok a, st') => (Ok a, st')
    | (Raise e, st') =>
        match sel e with
        | Some err => h err st'
        | None => (Raise e, st')
        end
    end.

(** A library call: the event is recorded and the world moves on. *)
Definition os_call {A} (ev : event) (op : World -> Res A * World) : M A :=
  fun st =>
    (fst (op (world st)),
     {| world := snd (op (world st)); trace := (trace st ++ [ev])%list |}).

Definition lift {A} (r : Res A) : M A := fun st => (r, st).

Definition print (text : string) : M unit :=
  fun st => (Ok tt, {| world := world st;
                       trace := (trace st ++ [EvPrint text])%list |}).

Definition sys_exit {A} (code : Z) : M A := raise (SystemExit code).

Notation "x <- m ;; k" := (bind m (fun x => k))
  (at level 61, m at next level, right associativity).
Notation "m ;; k" := (bind m (fun _ => k))
  (at level 61, right associativity).

(** [for x in l: body x] *)
Fixpoint for_each {A} (l : list A) (body : A -> M unit) : M unit :=
  match l with
  | [] => ret tt
  | x :: rest => body x ;; for_each rest body
  end.

(** The classes named by the [except] clauses. *)
Definition serial_exception (e : exn) : option string :=
  match e with
  | SerialException msg => Some msg
  | _ => None
  end.

Definition serial_or_broken_pipe (e : exn) : option string :=
  match e with
  | SerialException msg => Some msg
  | BrokenPipeError msg => Some msg
  | _ => None
  end.

(** *** class UsbCan *)

Record UsbCan : Type := {
  port : string;
  ser_port : option Handle
}.

(** [UsbCan(port)], the constructor *)
Definition UsbCan_init (p : string) : UsbCan :=
  {| port := p; ser_port := None |}.

(** A method call on [self.ser_port], which is [None] until the port is
    opened. *)
Definition on_ser_port {A} (self : UsbCan) (f : Handle -> M A) : M A :=
  match ser_port self with
  | Some h => f h
  | None => raise AttributeError
  end.

Definition ser_port_write (self : UsbCan) (data : bytes) : M unit :=
  on_ser_port self (fun h =>
    os_call (EvWrite (port self) data) (serial_write os h data)).

Definition ser_port_read (self : UsbCan) (size : nat) : M bytes :=
  on_ser_port self (fun h =>
    os_call (EvRead (port self) size) (serial_read os h size)).

Definition close (self : UsbCan) : M unit :=
  on_ser_port self (fun h =>
    os_call (EvClose (port self)) (serial_close os h)).

(** The object is mutable in Python; here the method returns the updated
    object with its result. *)
Definition init_serial_port (self : UsbCan) : M (bool * UsbCan) :=
  try_except
    (h <- os_call (EvOpen (port self)) (serial_for_url os (port self)) ;;
     ret (true, {| port := port self; ser_port := Some h |}))
    serial_or_broken_pipe
    (fun err => print err ;; ret (false, self)).

(** The command [c] followed by a carriage return, as [bytes]. *)
Definition command (c : byte) : bytes := [c; CR].

Definition close_can_channel (self : UsbCan) : M bool :=
  written <- try_except
               (ser_port_write self (command "C"%byte) ;; ret true)
               serial_exception
               (fun err => print err ;; ret false) ;;
  if negb written then ret false else
  got <- try_except
           (buf <- ser_port_read self 1 ;; ret (Some buf))
           serial_exception
           (fun err => print err ;; ret None) ;;
  match got with
  | None => ret false
  | Some buf =>
      if negb (bytes_eqb buf VSCAN_KO) && negb (bytes_eqb buf VSCAN_OK)
      then ret false
      else ret true
  end.

Definition lsof (self : UsbCan) : M unit :=
  output <- os_call (EvSpawn ["lsof"]) (popen_stdout os ["lsof"]) ;;
  text <- lift (decode_ascii output) ;;
  for_each (split_nl text) (fun line =>
    if contains (port self) line
    then print (port self ++ " is already open:" ++ nl ++ line)
    else ret tt).

Definition get_serial_number (self : UsbCan) : M (option bytes) :=
  let ser_num : option bytes := None in
  written <- try_except
               (ser_port_write self (command "N"%byte) ;; ret true)
               serial_exception
               (fun err => print err ;; ret false) ;;
  if negb written then ret ser_num else
  buf <- ser_port_read self 12 ;;
  first <- lift (py_index buf 0) ;;
  if negb (code first =? 78) then
    print ("Wrong first character: " ++ str_of_int (code first)) ;;
    ret ser_num
  else
  last <- lift (py_index buf (py_len buf - 1)) ;;
  if negb (code last =? 13) then
    print ("Wrong last character: " ++ str_of_int (code last)) ;;
    ret ser_num
  else
  ret (Some (py_slice buf (Some 1) (Some (py_len buf - 2)))).

Definition get_version_info (self : UsbCan) : M (option bytes) :=
  let ver : option bytes := None in
  written <- try_except
               (ser_port_write self (command "V"%byte) ;; ret true)
               serial_exception
               (fun err => print err ;; ret false) ;;
  if negb written then ret ver else
  buf <- ser_port_read self 6 ;;
  first <- lift (py_index buf 0) ;;
  if negb (code first =? 86) then
    print ("Wrong first character: " ++ str_of_int (code first)) ;;
    ret ver
  else
  last <- lift (py_index buf (py_len buf - 1)) ;;
  if negb (code last =? 13) then
    print ("Wrong last character: " ++ str_of_int (code last)) ;;
    ret ver
  else
  ret (Some (py_slice buf (Some 1) (Some (py_len buf - 1)))).

(** *** Module-level functions *)

Definition find_all_usb_can_devices : M (list string) :=
  ports <- os_call (EvGrep "0403:6015") (list_ports_grep os "0403:6015") ;;
  ret (map device ports).

Definition find_port (p : string) : M unit :=
  ports <- os_call (EvGrep p) (list_ports_grep os p) ;;
  for_each ports (fun item =>
    if String.eqb (device item) p then
      print ("Serial port found: " ++ str_of_item item) ;;
      if contains "USB-CAN Plus" (description item)
      then print "This device has a correct description"
      else print ("Device description is wrong: " ++ description item)
    else ret tt).

Definition check_lsmod : M bool :=
  output <- os_call (EvSpawn ["lsmod"]) (popen_stdout os ["lsmod"]) ;;
  text <- lift (decode_ascii output) ;;
  ret (existsb (contains "ftdi_sio") (split_nl text)).

Definition module_file (kernel_ver : string) : string :=
  "/lib/modules/" ++ kernel_ver ++ "/kernel/drivers/usb/serial/ftdi_sio.ko".

Definition builtin_manifest (kernel_ver : string) : string :=
  "/lib/modules/" ++ kernel_ver ++ "/modules.builtin".

Definition find_ftdi_driver : M bool :=
  loaded <- check_lsmod ;;
  if loaded then print "ftdi_sio is loaded" ;; ret true else
  output <- os_call (EvSpawn ["uname"; "-r"])
                    (popen_stdout os ["uname"; "-r"]) ;;
  text <- lift (decode_ascii output) ;;
  kernel_ver <- lift (match split_nl text with
                      | v :: _ => Ok v
                      | [] => Raise IndexError
                      end) ;;
  present <- os_call (EvIsFile (module_file kernel_ver))
               (fun w => (Ok (isfile os (module_file kernel_ver) w), w)) ;;
  if present then
    print "ftdi_sio could be found in /lib/modules" ;; ret true
  else
  mods <- os_call (EvOpenFile (builtin_manifest kernel_ver))
                  (open_lines os (builtin_manifest kernel_ver)) ;;
  if existsb (contains "ftdi_sio.ko") mods then
    print "ftdi_sio is builtin" ;; ret true
  else ret false.

(** *** main *)

(** The four numbers of lines 241-244, in the order they are computed. *)
Record Version : Type := {
  ver_major : Z;
  ver_minor : Z;
  hw_major : Z;
  hw_minor : Z
}.

(** [ver[lo:hi]] for the value [get_version_info] returned; subscripting
    [None] raises [TypeError]. *)
Definition subscript (v : option bytes) (lo hi : option Z) : Res bytes :=
  match v with
  | Some b => Ok (py_slice b lo hi)
  | None => Raise TypeError
  end.

Definition decode_version (ver : option bytes) : Res Version :=
  rbind (rbind (subscript ver (Some 2) (Some 3)) py_int16) (fun vmaj =>
  rbind (rbind (subscript ver (Some 3) None) py_int16) (fun vmin =>
  rbind (rbind (subscript ver None (Some 1)) py_int16) (fun hmaj =>
  rbind (rbind (subscript ver (Some 1) (Some 2)) py_int16) (fun hmin =>
  Ok {| ver_major := vmaj; ver_minor := vmin;
        hw_major := hmaj; hw_minor := hmin |})))).

(** [ser_num.decode('ascii')] *)
Definition decode_opt (v : option bytes) : Res string :=
  match v with
  | Some b => decode_ascii b
  | None => Raise AttributeError
  end.

Definition summary (p sn : string) (v : Version) : string :=
  p ++ " -> (SN: " ++ sn ++ ", " ++
  "FW: " ++ str_of_int (ver_major v) ++ ":" ++ str_of_int (ver_minor v) ++ ", " ++
  "HW: " ++ str_of_int (hw_major v) ++ ":" ++ str_of_int (hw_minor v) ++ ")".

Definition is_linux : bool := startswith (sys_platform os) "linux".

(** Lines 217-219: the advisory probes made on Linux before the port is
    opened. *)
Definition linux_probes (usbcan : UsbCan) : M unit :=
  if is_linux then find_port (port usbcan) ;; lsof usbcan else ret tt.

(** The body of the loop [for item in port_list], lines 216-250. *)
Definition check_device (item : string) : M unit :=
  let usbcan := UsbCan_init item in
  linux_probes usbcan ;;
  opened <- init_serial_port usbcan ;;
  let usbcan := snd opened in
  if negb (fst opened) then
    print "Failed to open serial port" ;;
    sys_exit 1
  else
  closed <- close_can_channel usbcan ;;
  if negb closed then
    print "Failed to close the CAN channel" ;;
    print "The port could be opened but this device doesn't respond to the ASCII commands" ;;
    sys_exit 1
  else
  ser_num <- get_serial_number usbcan ;;
  if negb (truthy ser_num) then
    print "Failed to get the serial number" ;;
    sys_exit 1
  else
  ver <- get_version_info usbcan ;;
  if negb (truthy ver) then
    print "Failed to get the firmware version" ;;
    sys_exit 1
  else
  v <- lift (decode_version ver) ;;
  print "Found VSCAN device with the following info:" ;;
  sn <- lift (decode_opt ser_num) ;;
  print (summary (port usbcan) sn v) ;;
  close usbcan.

(** [main], from the parsed command line on: [arg_port] is [args.port],
    which is ["all"] when the argument is omitted. *)
Definition main (arg_port : string) : M unit :=
  port_list <-
    (if String.eqb arg_port "all" then
       found <- find_all_usb_can_devices ;;
       match found with
       | [] =>
           print "No USB-CAN devices found" ;;
           (if is_linux then
              driver <- find_ftdi_driver ;;
              if negb driver then print "FTDI driver is not available"
              else ret tt
            else ret tt) ;;
           ret found
       | _ :: _ => ret found
       end
     else ret [arg_port]) ;;
  for_each port_list check_device.

(** *** Vocabulary for the statements *)

(** The state after library calls that moved the world to [w] and left
    the events [evs]. *)
Definition after (st : State) (w : World) (evs : list event) : State :=
  {| world := w; trace := (trace st ++ evs)%list |}.

(** A computation only adds to the trace. *)
Definition grows {A} (m : M A) : Prop :=
  forall st, exists evs, trace (snd (m st)) = (trace st ++ evs)%list.

(** The line the two framed queries print for a reply whose first byte is
    not the one [expected] or whose last byte is not a carriage return;
    [None] for an empty reply and for a reply that passes both checks. *)
Definition framing_complaint (expected : Z) (buf : bytes) : option string :=
  match buf with
  | [] => None
  | b :: _ =>
      if negb (code b =? expected)
      then Some ("Wrong first character: " ++ str_of_int (code b))
      else if negb (code (last buf b) =? 13)
      then Some ("Wrong last character: " ++ str_of_int (code (last buf b)))
      else None
  end.

(** The ways a device fails one of the four checks of the loop body: the
    state in which the check failed and the lines printed for it. *)
Inductive failed_check (item : string) (st : State)
  : State -> list string -> Prop :=
| failed_open st1 u st2 :
    linux_probes (UsbCan_init item) st = (Ok tt, st1) ->
    init_serial_port (UsbCan_init item) st1 = (Ok (false, u), st2) ->
    failed_check item st st2 ["Failed to open serial port"]
| failed_close st1 u st2 st3 :
    linux_probes (UsbCan_init item) st = (Ok tt, st1) ->
    init_serial_port (UsbCan_init item) st1 = (Ok (true, u), st2) ->
    close_can_channel u st2 = (Ok false, st3) ->
    failed_check item st st3
      ["Failed to close the CAN channel";
       "The port could be opened but this device doesn't respond to the ASCII commands"]
| failed_serial_number st1 u st2 st3 ser_num st4 :
    linux_probes (UsbCan_init item) st = (Ok tt, st1) ->
    init_serial_port (UsbCan_init item) st1 = (Ok (true, u), st2) ->
    close_can_channel u st2 = (Ok true, st3) ->
    get_serial_number u st3 = (Ok ser_num, st4) ->
    truthy ser_num = false ->
    failed_check item st st4 ["Failed to get the serial number"]
| failed_version st1 u st2 st3 ser_num st4 ver st5 :
    linux_probes (UsbCan_init item) st = (Ok tt, st1) ->
    init_serial_port (UsbCan_init item) st1 = (Ok (true, u), st2) ->
    close_can_channel u st2 = (Ok true, st3) ->
    get_serial_number u st3 = (Ok ser_num, st4) ->
    truthy ser_num = true ->
    get_version_info u st4 = (Ok ver, st5) ->
    truthy ver = false ->
    failed_check item st st5 ["Failed to get the firmware version"].

(** What [check_lsmod] makes of the outcome of running [lsmod]. *)
Definition scan_lsmod (r : Res bytes) : Res bool :=
  rbind r (fun output =>
  rbind (decode_ascii output) (fun text =>
  Ok (existsb (contains "ftdi_sio") (split_nl text)))).

(** The kernel version [find_ftdi_driver] takes from the outcome of
    running [uname -r]. *)
Definition kernel_version (r : Res bytes) : Res string :=
  rbind r (fun output =>
  rbind (decode_ascii output) (fun text =>
  match split_nl text with
  | v :: _ => Ok v
  | [] => Raise IndexError
  end)).

(** What the scan of the builtin manifest makes of the outcome of opening
    it. *)
Definition scan_builtin (r : Res (list string)) : Res bool :=
  rbind r (fun mods => Ok (existsb (contains "ftdi_sio.ko") mods)).

End Tester.

Arguments OS : clear implicits.
Arguments State : clear implicits.
Arguments M : clear implicits.
Arguments UsbCan : clear implicits.

(** *** A mock system

    A scripted operating system to run the tester against: each serial
    device answers a command with a fixed reply, and every other library
    call has a fixed outcome.  A handle is the port's name; the world is
    the receive buffer of each port. *)

Record MockDevice : Type := {
  md_open : Res unit;
  md_write : bytes -> Res unit;
  md_reply : bytes -> Res bytes
}.

Record MockSystem : Type := {
  ms_platform : string;
  ms_device : string -> MockDevice;
  ms_popen : list string -> Res bytes;
  ms_isfile : string -> bool;
  ms_open : string -> Res (list string);
  ms_grep : string -> Res (list ListPortInfo)
}.

Definition MockWorld : Type := list (string * Res bytes).

Fixpoint rx_lookup (w : MockWorld) (p : string) : Res bytes :=
  match w with
  | [] => Ok []
  | (q, r) :: rest => if String.eqb p q then r else rx_lookup rest p
  end.

(** A write that succeeds makes the device's reply the content of the
    receive buffer. *)
Definition mock_write (sys : MockSystem) (h : string) (data : bytes)
  (w : MockWorld) : Res unit * MockWorld :=
  match md_write (ms_device sys h) data with
  | Ok _ => (Ok tt, (h, md_reply (ms_device sys h) data) :: w)
  | Raise e => (Raise e, w)
  end.

(** A read returns at most [size] bytes, whatever has arrived by the
    timeout, and leaves the rest in the buffer. *)
Definition mock_read (h : string) (size : nat) (w : MockWorld)
  : Res bytes * MockWorld :=
  match rx_lookup w h with
  | Ok buf => (Ok (firstn size buf), (h, Ok (skipn size buf)) :: w)
  | Raise e => (Raise e, w)
  end.

Definition mock_os (sys : MockSystem) : OS MockWorld string := {|
  sys_platform := ms_platform sys;
  serial_for_url := fun url w =>
    (rbind (md_open (ms_device sys url)) (fun _ => Ok url), w);
  serial_write := mock_write sys;
  serial_read := mock_read;
  serial_close := fun _ w => (Ok tt, w);
  popen_stdout := fun argv w => (ms_popen sys argv, w);
  isfile := fun path _ => ms_isfile sys path;
  open_lines := fun path w => (ms_open sys path, w);
  list_ports_grep := fun pat w => (ms_grep sys pat, w)
|}.

Definition initial : State MockWorld := {| world := []; trace := [] |}.

(** A device that answers the three commands of the tester. *)
Definition scripted_device (close_reply sn_reply ver_reply : bytes)
  : MockDevice := {|
  md_open := Ok tt;
  md_write := fun _ => Ok tt;
  md_reply := fun cmd =>
    if bytes_eqb cmd (command "C"%byte) then Ok close_reply
    else if bytes_eqb cmd (command "N"%byte) then Ok sn_reply
    else if bytes_eqb cmd (command "V"%byte) then Ok ver_reply
    else Ok []
|}.

(** A system that is not Linux and has the same device behind every
    port. *)
Definition bench (d : MockDevice) : MockSystem := {|
  ms_platform := "win32";
  ms_device := fun _ => d;
  ms_popen := fun _ => Raise (FileNotFoundError "no such program");
  ms_isfile := fun _ => false;
  ms_open := fun _ => Raise (FileNotFoundError "no such file");
  ms_grep := fun _ => Ok []
|}.

(** [b"..." + b"\r"] *)
Definition framed (s : string) : bytes := (encode_ascii s ++ [CR])%list.

(** The bytes [int(b, 16)] takes for a digit, and those among them that
    are not lower-case letters. *)
Definition is_hex_digit (b : byte) : bool :=
  match hex_digit_value b with Some _ => true | None => false end.

Definition is_upper_hex_digit (b : byte) : bool :=
  is_hex_digit b && negb ((97 <=? code b) && (code b <=? 102)).

(** The upper-case form of a byte: [a] to [z] become [A] to [Z]. *)
Definition to_upper (b : byte) : byte :=
  if (97 <=? code b) && (code b <=? 122)
  then match Byte.of_N (Z.to_N (code b - 32)) with
       | Some u => u
       | None => b
       end
  else b.

(** The value of a digit; 0 for a byte that is none. *)
Definition digit (b : byte) : Z :=
  match hex_digit_value b with Some d => d | None => 0 end.

(** The [d]-th digit of [0123456789ABCDEF] and of [0123456789abcdef]. *)
Definition upper_digit_byte (d : nat) : byte :=
  nth d (encode_ascii "0123456789ABCDEF") x00.

Definition lower_digit_byte (d : nat) : byte :=
  nth d (encode_ascii "0123456789abcdef") x00.

(** A version payload as the reply carries it: four hexadecimal digits. *)
Definition well_formed_payload (p : bytes) : bool :=
  (List.length p =? 4)%nat && forallb is_hex_digit p.

(** An event of the serial port [p]. *)
Definition on_port (p : string) (ev : event) : bool :=
  match ev with
  | EvOpen q | EvWrite q _ | EvRead q _ | EvClose q => String.eqb p q
  | _ => false
  end.

(** *** Scenarios *)

Definition ttyUSB0 : string := "/dev/ttyUSB0".
Definition ttyUSB1 : string := "/dev/ttyUSB1".

(** The [UsbCan] object of port [p] once the mock has opened it. *)
Definition opened (p : string) : UsbCan string :=
  {| port := p; ser_port := Some p |}.

(** The device of the protocol table: [\r], [N1234567890\r], [V1234\r]. *)
Definition healthy_device : MockDevice :=
  scripted_device [CR] (framed "N1234567890") (framed "V1234").

(** The same device answering the close command with the bell. *)
Definition nak_device : MockDevice :=
  scripted_device [BEL] (framed "N1234567890") (framed "V1234").

(** A device whose version has the letter [G] for a digit. *)
Definition bad_version_device : MockDevice :=
  scripted_device [CR] (framed "N1234567890") (framed "V12G4").

(** A device that answers the close command and then nothing: the read of
    the serial number times out with no byte. *)
Definition silent_device : MockDevice :=
  scripted_device [CR] [] [].

(** A device that gives its serial number and then nothing. *)
Definition versionless_device : MockDevice :=
  scripted_device [CR] (framed "N1234567890") [].



(** A device whose serial-number reply starts with [X]. *)
Definition misframed_device : MockDevice :=
  scripted_device [CR] (framed "X1234567890") (framed "V1234").




(** A device whose port cannot be written to. *)
Definition broken_device : MockDevice := {|
  md_open := Ok tt;
  md_write := fun _ => Raise (SerialException "write failed");
  md_reply := fun _ => Ok []
|}.

(** Two enumerated adapters: the first answers the serial-number query
    with a wrong first byte, the second is healthy. *)
Definition two_ports : MockSystem := {|
  ms_platform := "win32";
  ms_device := fun p =>
    if String.eqb p ttyUSB0 then misframed_device else healthy_device;
  ms_popen := fun _ => Raise (FileNotFoundError "no such program");
  ms_isfile := fun _ => false;
  ms_open := fun _ => Raise (FileNotFoundError "no such file");
  ms_grep := fun _ =>
    Ok [ {| device := ttyUSB0; description := "USB-CAN Plus" |};
         {| device := ttyUSB1; description := "USB-CAN Plus" |} ]
|}.

(** A Linux system without the driver: [lsmod] and [uname -r] run, the
    module file does not exist, and the kernel has no builtin manifest
    ([lines] is [None]) or one with the given lines. *)
Definition lsmod_output : bytes :=
  encode_ascii ("Module                  Size  Used by" ++ nl ++
                "usbserial              53248  0" ++ nl).

Definition uname_output : bytes := encode_ascii ("6.1.0-13-amd64" ++ nl).

Definition linux_box (lines : option (list string)) : MockSystem := {|
  ms_platform := "linux";
  ms_device := fun _ => healthy_device;
  ms_popen := fun argv =>
    match argv with
    | [prog] =>
        if String.eqb prog "lsmod" then Ok lsmod_output
        else Raise (FileNotFoundError prog)
    | [prog; flag] =>
        if String.eqb prog "uname" && String.eqb flag "-r" then Ok uname_output
        else Raise (FileNotFoundError prog)
    | _ => Raise (FileNotFoundError "no such program")
    end;
  ms_isfile := fun _ => false;
  ms_open := fun path =>
    match lines with
    | Some l => Ok l
    | None => Raise (FileNotFoundError path)
    end;
  ms_grep := fun _ => Ok []
|}.

(** What the process wrote on standard output. *)
Fixpoint printed (t : list event) : list string :=
  match t with
  | [] => []
  | EvPrint text :: rest => text :: printed rest
  | _ :: rest => printed rest
  end.

(** *** Further vocabulary *)

(** A text without a line end. *)
Fixpoint single_line (s : string) : bool :=
  match s with
  | EmptyString => true
  | String c t => negb (Ascii.eqb c newline) && single_line t
  end.

(** Every event a computation adds to the trace satisfies [P], and a
    value it returns satisfies [Q]. *)
Definition emits {World A} (P : event -> bool) (Q : A -> Prop)
  (m : M World A) : Prop :=
  forall st, exists evs,
    trace (snd (m st)) = (trace st ++ evs)%list /\
    forallb P evs = true /\
    (forall a, fst (m st) = Ok a -> Q a).

(** The condition every returned value meets. *)
Definition any {A} : A -> Prop := fun _ => True.

Definition is_close (ev : event) : bool :=
  match ev with
  | EvClose _ => true
  | _ => false
  end.

(** The serial traffic the tester may have with the port [item]: the
    port is opened and closed, the three commands are written, and 1, 12
    or 6 bytes are asked for. *)
Definition harmless (item : string) (ev : event) : bool :=
  match ev with
  | EvOpen q => String.eqb item q
  | EvClose q => String.eqb item q
  | EvWrite q data =>
      String.eqb item q &&
      (bytes_eqb data (command "C"%byte) || bytes_eqb data (command "N"%byte) ||
       bytes_eqb data (command "V"%byte))
  | EvRead q size =>
      String.eqb item q &&
      ((size =? 1)%nat || (size =? 12)%nat || (size =? 6)%nat)
  | _ => true
  end.


(** The two lines [find_port] prints for an entry of the port. *)
Definition find_port_lines (item : ListPortInfo) : list string :=
  [ "Serial port found: " ++ str_of_item item;
    if contains "USB-CAN Plus" (description item)
    then "This device has a correct description"
    else "Device description is wrong: " ++ description item ].

(** *** Further scenarios *)

(** A device whose port cannot be opened. *)
Definition unopenable_device : MockDevice := {|
  md_open := Raise (BrokenPipeError "broken pipe");
  md_write := fun _ => Ok tt;
  md_reply := fun _ => Ok []
|}.

(** A device whose serial-number reply is framed and has one payload
    byte. *)
Definition tiny_device : MockDevice :=
  scripted_device [CR] (framed "N1") (framed "V1234").

(** A device whose reads fail. *)
Definition unreadable_device : MockDevice := {|
  md_open := Ok tt;
  md_write := fun _ => Ok tt;
  md_reply := fun _ => Raise (SerialException "read failed")
|}.

(** A Linux host with one adapter on [ttyUSB0] and a second entry,
    [/dev/ttyUSB00], that the pattern matches too; [lsof] shows one
    process holding the port. *)
Definition lsof_output : bytes :=
  encode_ascii ("COMMAND PID USER NAME" ++ nl ++
                "minicom 812 root /dev/ttyUSB0" ++ nl ++
                "bash 900 root /dev/pts/0" ++ nl).

Definition ftdi_lsmod_output : bytes :=
  encode_ascii ("Module                  Size  Used by" ++ nl ++
                "ftdi_sio               61440  0" ++ nl ++
                "usbserial              53248  1 ftdi_sio" ++ nl).

Definition linux_host (d : MockDevice) (lsmod : bytes) : MockSystem := {|
  ms_platform := "linux";
  ms_device := fun _ => d;
  ms_popen := fun argv =>
    match argv with
    | [prog] =>
        if String.eqb prog "lsmod" then Ok lsmod
        else if String.eqb prog "lsof" then Ok lsof_output
        else Raise (FileNotFoundError prog)
    | [prog; flag] =>
        if String.eqb prog "uname" && String.eqb flag "-r" then Ok uname_output
        else Raise (FileNotFoundError prog)
    | _ => Raise (FileNotFoundError "no such program")
    end;
  ms_isfile := fun path =>
    String.eqb path (module_file "6.1.0-13-amd64");
  ms_open := fun path => Raise (FileNotFoundError path);
  ms_grep := fun pat =>
    if String.eqb pat "0403:6015" then Ok []
    else Ok [ {| device := ttyUSB0; description := "USB-CAN Plus" |};
              {| device := "/dev/ttyUSB00"; description := "FT230X Basic UART" |} ]
|}.

End Vscantester.

(** ** The frame dump tool, [vscandump.py] *)

Module Vscandump.
Import Py.

(** A received [can.Message]: the fields the tool reads.  The identifier
    and the length code are non-negative integers, the payload is a
    [bytearray]. *)
Record Message : Type := {
  arbitration_id : N;
  dlc : N;
  data : bytes
}.

(** Digits of a hexadecimal numeral, most significant first, in upper
    case. *)
Fixpoint upper_digits (d : Hexadecimal.uint) : string :=
  match d with
  | Hexadecimal.Nil => EmptyString
  | Hexadecimal.D0 d => String "0" (upper_digits d)
  | Hexadecimal.D1 d => String "1" (upper_digits d)
  | Hexadecimal.D2 d => String "2" (upper_digits d)
  | Hexadecimal.D3 d => String "3" (upper_digits d)
  | Hexadecimal.D4 d => String "4" (upper_digits d)
  | Hexadecimal.D5 d => String "5" (upper_digits d)
  | Hexadecimal.D6 d => String "6" (upper_digits d)
  | Hexadecimal.D7 d => String "7" (upper_digits d)
  | Hexadecimal.D8 d => String "8" (upper_digits d)
  | Hexadecimal.D9 d => String "9" (upper_digits d)
  | Hexadecimal.Da d => String "A" (upper_digits d)
  | Hexadecimal.Db d => String "B" (upper_digits d)
  | Hexadecimal.Dc d => String "C" (upper_digits d)
  | Hexadecimal.Dd d => String "D" (upper_digits d)
  | Hexadecimal.De d => String "E" (upper_digits d)
  | Hexadecimal.Df d => String "F" (upper_digits d)
  end.

(** ["{:X}".format(n)] *)
Definition format_X (n : N) : string := upper_digits (N.to_hex_uint n).

(** ["{:02X}".format(n)]: at least two digits, padded with zeros on the
    left. *)
Definition format_02X (n : N) : string :=
  let s := format_X n in
  match String.length s with
  | O => "00"
  | S O => String "0" s
  | _ => s
  end.

(** ["{}".format(n)] *)
Definition format_d (n : N) : string :=
  NilEmpty.string_of_uint (N.to_uint n).

(** ["".join("{:02X} ".format(byte) for byte in msg.data)] *)
Fixpoint join_bytes (payload : bytes) : string :=
  match payload with
  | [] => EmptyString
  | b :: rest => format_02X (Byte.to_N b) ++ " " ++ join_bytes rest
  end.

(** The text given to [print] for one frame, lines 29-32. *)
Definition dump_text (msg : Message) : string :=
  format_X (arbitration_id msg) ++ " [" ++ format_d (dlc msg) ++ "] " ++
  join_bytes (data msg).

(** What [print(text)] writes on standard output. *)
Definition print_output (text : string) : string := text ++ nl.

(** *** The receive loop

    The control points of [main] after the bus is open: the head of
    [while True], the blocking [bus.recv()], the unreachable
    [bus.shutdown()] after the loop, and the end of [main]. *)
Inductive control : Type :=
| LoopHead
| InRecv
| AtShutdown
| Returned.

Record DumpState : Type := {
  pc : control;
  stdout : string
}.

(** The condition of [while True]. *)
Definition loop_condition : bool := true.

(** One step of the program.  [incoming] is the frame [bus.recv()]
    delivers, if the step is the one that waits for it. *)
Definition dump_step (s : DumpState) (incoming : option Message)
  : option DumpState :=
  match pc s with
  | LoopHead =>
      if loop_condition
      then Some {| pc := InRecv; stdout := stdout s |}
      else Some {| pc := AtShutdown; stdout := stdout s |}
  | InRecv =>
      match incoming with
      | Some msg =>
          Some {| pc := LoopHead;
                  stdout := stdout s ++ print_output (dump_text msg) |}
      | None => None
      end
  | AtShutdown => Some {| pc := Returned; stdout := stdout s |}
  | Returned => None
  end.

Inductive step : DumpState -> DumpState -> Prop :=
| step_intro s incoming s' :
    dump_step s incoming = Some s' -> step s s'.

Inductive reachable (s0 : DumpState) : DumpState -> Prop :=
| reach_refl : reachable s0 s0
| reach_step s s' : reachable s0 s -> step s s' -> reachable s0 s'.

Definition start : DumpState := {| pc := LoopHead; stdout := EmptyString |}.

(** The loop run on the frames the bus delivers, one after the other: the
    state in which it waits for the next one. *)
Fixpoint receive_all (s : DumpState) (frames : list Message) : option DumpState :=
  match frames with
  | [] => dump_step s None
  | msg :: rest =>
      match dump_step s None with
      | Some s1 =>
          match dump_step s1 (Some msg) with
          | Some s2 => receive_all s2 rest
          | None => None
          end
      | None => None
      end
  end.

(** What the loop has written once it has received [frames]. *)
Fixpoint lines_of (frames : list Message) : string :=
  match frames with
  | [] => EmptyString
  | msg :: rest => print_output (dump_text msg) ++ lines_of rest
  end.

(** Number of line ends in a text. *)
Fixpoint count_newlines (s : string) : nat :=
  match s with
  | EmptyString => O
  | String c t => (if Ascii.eqb c newline then 1 else 0)%nat + count_newlines t
  end.

(** Reading an upper-case hexadecimal numeral back. *)
Definition upper_digit (c : ascii) (d : option Hexadecimal.uint)
  : option Hexadecimal.uint :=
  match d with
  | None => None
  | Some d =>
      match c with
      | "0" => Some (Hexadecimal.D0 d)
      | "1" => Some (Hexadecimal.D1 d)
      | "2" => Some (Hexadecimal.D2 d)
      | "3" => Some (Hexadecimal.D3 d)
      | "4" => Some (Hexadecimal.D4 d)
      | "5" => Some (Hexadecimal.D5 d)
      | "6" => Some (Hexadecimal.D6 d)
      | "7" => Some (Hexadecimal.D7 d)
      | "8" => Some (Hexadecimal.D8 d)
      | "9" => Some (Hexadecimal.D9 d)
      | "A" => Some (Hexadecimal.Da d)
      | "B" => Some (Hexadecimal.Db d)
      | "C" => Some (Hexadecimal.Dc d)
      | "D" => Some (Hexadecimal.Dd d)
      | "E" => Some (Hexadecimal.De d)
      | "F" => Some (Hexadecimal.Df d)
      | _ => None
      end
  end%char.

Fixpoint read_upper (s : string) : option Hexadecimal.uint :=
  match s with
  | EmptyString => Some Hexadecimal.Nil
  | String c t => upper_digit c (read_upper t)
  end.

(** The number an upper-case hexadecimal text denotes, if it is one. *)
Definition upper_hex_value (s : string) : option N :=
  match s with
  | EmptyString => None
  | _ => option_map N.of_hex_uint (read_upper s)
  end.

(** The number a decimal text denotes, if it is one. *)
Definition decimal_value (s : string) : option N :=
  match s with
  | EmptyString => None
  | _ => option_map N.of_uint (NilEmpty.uint_of_string s)
  end.

(** *** Reading a dump line back *)

(** The text before the first [c] and the text after it. *)
Fixpoint split_at (c : ascii) (s : string) : option (string * string) :=
  match s with
  | EmptyString => None
  | String a t =>
      if Ascii.eqb a c then Some (EmptyString, t)
      else match split_at c t with
           | Some (h, r) => Some (String a h, r)
           | None => None
           end
  end.

(** The byte two upper-case hexadecimal digits denote. *)
Definition byte_of_digits (a b : ascii) : option byte :=
  match upper_hex_value (String a (String b EmptyString)) with
  | Some n => Byte.of_N n
  | None => None
  end.

(** The payload written as groups of two digits and a space. *)
Fixpoint read_payload (s : string) : option bytes :=
  match s with
  | EmptyString => Some []
  | String a (String b (String sp t)) =>
      if Ascii.eqb sp " "
      then match byte_of_digits a b, read_payload t with
           | Some x, Some rest => Some (x :: rest)
           | _, _ => None
           end
      else None
  | _ => None
  end.

(** The frame a line of the dump denotes. *)
Definition read_line (s : string) : option Message :=
  match split_at " " s with
  | Some (id_text, String "[" rest) =>
      match split_at "]" rest with
      | Some (dlc_text, String " " payload) =>
          match upper_hex_value id_text, decimal_value dlc_text,
                read_payload payload with
          | Some i, Some n, Some d =>
              Some {| arbitration_id := i; dlc := n; data := d |}
          | _, _, _ => None
          end
      | _ => None
      end
  | _ => None
  end.

End Vscandump.

(** ** Properties of the device tester *)

Module TesterProofs.
Import Py Vscantester.

(** ** Python builtins *)

Example py_int16_letters :
  py_int16 (encode_ascii "a") = Ok 10 /\ py_int16 (encode_ascii "A") = Ok 10 /\
  py_int16 (encode_ascii "G") = Raise ValueError /\
  py_int16 [] = Raise ValueError /\
  py_int16 (encode_ascii " 0x_1F ") = Ok 31 /\
  py_int16 (encode_ascii "1__2") = Raise ValueError.
Proof. repeat split. Qed.

Example py_slice_serial_number :
  py_slice (framed "N1234567890") (Some 1) (Some (py_len (framed "N1234567890") - 2))
    = encode_ascii "123456789" /\
  py_slice (framed "V1234") (Some 1) (Some (py_len (framed "V1234") - 1))
    = encode_ascii "1234".
Proof. split; reflexivity. Qed.

Example split_nl_lines :
  split_nl ("a" ++ nl ++ "b" ++ nl) = ["a"; "b"; ""].
Proof. reflexivity. Qed.

Lemma py_index_nil i : py_index [] i = Raise IndexError.
Proof.
  unfold py_index, py_len. cbn [List.length Z.of_nat].
  destruct (i <? 0) eqn:Hi.
  - rewrite Z.add_0_r, Hi. reflexivity.
  - destruct (0 <=? i) eqn:H0; [now rewrite orb_true_r |].
    apply Z.ltb_ge in Hi. apply Z.leb_gt in H0. lia.
Qed.

Lemma py_index_first b t : py_index (b :: t) 0 = Ok b.
Proof.
  unfold py_index, py_len. cbn [List.length Z.ltb Z.compare].
  rewrite Nat2Z.inj_succ.
  destruct (Z.succ (Z.of_nat (List.length t)) <=? 0) eqn:H.
  - apply Z.leb_le in H. lia.
  - reflexivity.
Qed.

Lemma py_index_last b t :
  py_index (b :: t) (py_len (b :: t) - 1) = Ok (last (b :: t) b).
Proof.
  unfold py_index, py_len.
  set (n := List.length (b :: t)).
  assert (Hn : (0 < n)%nat) by (subst n; cbn; lia).
  destruct (Z.of_nat n - 1 <? 0) eqn:H1; [apply Z.ltb_lt in H1; lia |].
  rewrite H1. cbn [orb].
  destruct (Z.of_nat n <=? Z.of_nat n - 1) eqn:H2; [apply Z.leb_le in H2; lia |].
  replace (Z.to_nat (Z.of_nat n - 1)) with (n - 1)%nat by lia.
  subst n. clear.
  assert (H : forall (l : list byte) d, l <> [] ->
            nth_error l (List.length l - 1) = Some (last l d)).
  { induction l as [|x l IH]; intros d Hl; [congruence |].
    destruct l as [|y l]; [reflexivity |].
    specialize (IH d ltac:(discriminate)).
    cbn [List.length] in *. replace (S (S (List.length l)) - 1)%nat with (S (List.length l)) by lia.
    cbn [nth_error]. replace (S (List.length l) - 1)%nat with (List.length l) in IH by lia.
    rewrite IH. reflexivity. }
  rewrite (H (b :: t) b ltac:(discriminate)). reflexivity.
Qed.

Lemma py_int16_digit b :
  py_int16 [b] = match hex_digit_value b with
                 | Some d => Ok d
                 | None => Raise ValueError
                 end.
Proof. destruct b; vm_compute; reflexivity. Qed.

Lemma hex_digit_value_upper d :
  (d < 16)%nat -> hex_digit_value (upper_digit_byte d) = Some (Z.of_nat d).
Proof.
  intros H. do 16 (destruct d as [|d]; [reflexivity |]). lia.
Qed.

Lemma hex_digit_value_lower d :
  (d < 16)%nat -> hex_digit_value (lower_digit_byte d) = Some (Z.of_nat d).
Proof.
  intros H. do 16 (destruct d as [|d]; [reflexivity |]). lia.
Qed.

Lemma digit_upper_eq a b :
  is_hex_digit a = true -> is_hex_digit b = true ->
  digit a = digit b -> to_upper a = to_upper b.
Proof.
  destruct a; try discriminate; destruct b; try discriminate;
    intros _ _ H; vm_compute in H; try discriminate H; reflexivity.
Qed.

Lemma to_upper_fixed b : is_upper_hex_digit b = true -> to_upper b = b.
Proof. destruct b; try discriminate; reflexivity. Qed.

(** ** The monad and the serial port *)

Section Generic.

Context {World Handle : Type}.
Variable os : OS World Handle.

Lemma after_after (st : State World) w evs w' evs' :
  after (after st w evs) w' evs' = after st w' (evs ++ evs')%list.
Proof. unfold after; simpl. now rewrite <- app_assoc. Qed.

Lemma bind_ok {A B} (m : M World A) (k : A -> M World B) st a st' :
  m st = (Ok a, st') -> bind m k st = k a st'.
Proof. intros H. unfold bind. now rewrite H. Qed.

Lemma bind_raise {A B} (m : M World A) (k : A -> M World B) st e st' :
  m st = (Raise e, st') -> bind m k st = (Raise e, st').
Proof. intros H. unfold bind. now rewrite H. Qed.

Lemma print_run text (st : State World) :
  print text st = (Ok tt, after st (world st) [EvPrint text]).
Proof. reflexivity. Qed.

Lemma for_each_raise {A} (body : A -> M World unit) x rest st e st' :
  body x st = (Raise e, st') ->
  for_each (x :: rest) body st = (Raise e, st').
Proof. intros H. cbn [for_each]. now apply bind_raise. Qed.

Lemma write_run (self : UsbCan Handle) h data st r w :
  ser_port self = Some h ->
  serial_write os h data (world st) = (r, w) ->
  ser_port_write os self data st = (r, after st w [EvWrite (port self) data]).
Proof.
  intros Hh Hw. unfold ser_port_write, on_ser_port, os_call.
  rewrite Hh, Hw. reflexivity.
Qed.

Lemma read_run (self : UsbCan Handle) h size st r w :
  ser_port self = Some h ->
  serial_read os h size (world st) = (r, w) ->
  ser_port_read os self size st = (r, after st w [EvRead (port self) size]).
Proof.
  intros Hh Hw. unfold ser_port_read, on_ser_port, os_call.
  rewrite Hh, Hw. reflexivity.
Qed.

(** The guarded write that opens each of the three exchanges. *)
Lemma guarded_write_ok (self : UsbCan Handle) h data st w :
  ser_port self = Some h ->
  serial_write os h data (world st) = (Ok tt, w) ->
  try_except (bind (ser_port_write os self data) (fun _ => ret true))
    serial_exception (fun err => bind (print err) (fun _ => ret false)) st
  = (Ok true, after st w [EvWrite (port self) data]).
Proof.
  intros Hh Hw. unfold try_except, bind.
  rewrite (write_run _ _ _ _ _ _ Hh Hw). reflexivity.
Qed.

Lemma guarded_write_error (self : UsbCan Handle) h data st msg w :
  ser_port self = Some h ->
  serial_write os h data (world st) = (Raise (SerialException msg), w) ->
  try_except (bind (ser_port_write os self data) (fun _ => ret true))
    serial_exception (fun err => bind (print err) (fun _ => ret false)) st
  = (Ok false, after st w [EvWrite (port self) data; EvPrint msg]).
Proof.
  intros Hh Hw. unfold try_except, bind.
  rewrite (write_run _ _ _ _ _ _ Hh Hw). cbn [serial_exception].
  rewrite print_run, after_after. reflexivity.
Qed.

(** *** close_can_channel *)

Lemma close_can_channel_reply (self : UsbCan Handle) h st w1 buf w2 :
  ser_port self = Some h ->
  serial_write os h (command "C"%byte) (world st) = (Ok tt, w1) ->
  serial_read os h 1 w1 = (Ok buf, w2) ->
  close_can_channel os self st =
    (Ok (bytes_eqb buf VSCAN_KO || bytes_eqb buf VSCAN_OK),
     after st w2 [EvWrite (port self) (command "C"%byte); EvRead (port self) 1]).
Proof.
  intros Hh Hw Hr. unfold close_can_channel.
  rewrite (bind_ok _ _ _ _ _ (guarded_write_ok _ _ _ _ _ Hh Hw)). cbn [negb].
  unfold bind at 1, try_except, bind.
  rewrite (read_run self h 1 (after st w1 _) (Ok buf) w2 Hh Hr).
  cbn [ret]. rewrite after_after.
  destruct (bytes_eqb buf VSCAN_KO), (bytes_eqb buf VSCAN_OK); reflexivity.
Qed.

Lemma close_can_channel_write_error (self : UsbCan Handle) h st msg w1 :
  ser_port self = Some h ->
  serial_write os h (command "C"%byte) (world st) = (Raise (SerialException msg), w1) ->
  close_can_channel os self st =
    (Ok false, after st w1 [EvWrite (port self) (command "C"%byte); EvPrint msg]).
Proof.
  intros Hh Hw. unfold close_can_channel.
  rewrite (bind_ok _ _ _ _ _ (guarded_write_error _ _ _ _ _ _ Hh Hw)).
  reflexivity.
Qed.

Lemma close_can_channel_read_error (self : UsbCan Handle) h st w1 msg w2 :
  ser_port self = Some h ->
  serial_write os h (command "C"%byte) (world st) = (Ok tt, w1) ->
  serial_read os h 1 w1 = (Raise (SerialException msg), w2) ->
  close_can_channel os self st =
    (Ok false,
     after st w2 [EvWrite (port self) (command "C"%byte); EvRead (port self) 1;
                  EvPrint msg]).
Proof.
  intros Hh Hw Hr. unfold close_can_channel.
  rewrite (bind_ok _ _ _ _ _ (guarded_write_ok _ _ _ _ _ Hh Hw)). cbn [negb].
  unfold bind at 1, try_except, bind.
  rewrite (read_run self h 1 (after st w1 _) _ w2 Hh Hr).
  cbn [serial_exception]. rewrite print_run. cbn [ret].
  rewrite !after_after. reflexivity.
Qed.

(** The common beginning of the two framed queries: the command is
    written and the reply read. *)
Ltac framing_start Hh Hw Hr :=
  unfold get_serial_number, get_version_info;
  rewrite (bind_ok _ _ _ _ _ (guarded_write_ok _ _ _ _ _ Hh Hw));
  cbn [negb];
  rewrite (bind_ok _ _ _ _ _ (read_run _ _ _ (after _ _ _) _ _ Hh Hr));
  rewrite ?after_after; cbn [app].

(** *** get_serial_number *)

Lemma get_serial_number_write_error (self : UsbCan Handle) h st msg w1 :
  ser_port self = Some h ->
  serial_write os h (command "N"%byte) (world st) = (Raise (SerialException msg), w1) ->
  get_serial_number os self st =
    (Ok None, after st w1 [EvWrite (port self) (command "N"%byte); EvPrint msg]).
Proof.
  intros Hh Hw. unfold get_serial_number.
  rewrite (bind_ok _ _ _ _ _ (guarded_write_error _ _ _ _ _ _ Hh Hw)).
  reflexivity.
Qed.

Lemma get_serial_number_empty (self : UsbCan Handle) h st w1 w2 :
  ser_port self = Some h ->
  serial_write os h (command "N"%byte) (world st) = (Ok tt, w1) ->
  serial_read os h 12 w1 = (Ok [], w2) ->
  get_serial_number os self st =
    (Raise IndexError,
     after st w2 [EvWrite (port self) (command "N"%byte); EvRead (port self) 12]).
Proof.
  intros Hh Hw Hr. framing_start Hh Hw Hr.
  unfold bind, lift. rewrite py_index_nil. reflexivity.
Qed.

Lemma get_serial_number_wrong_first (self : UsbCan Handle) h st w1 b t w2 :
  ser_port self = Some h ->
  serial_write os h (command "N"%byte) (world st) = (Ok tt, w1) ->
  serial_read os h 12 w1 = (Ok (b :: t), w2) ->
  code b <> 78 ->
  get_serial_number os self st =
    (Ok None,
     after st w2 [EvWrite (port self) (command "N"%byte); EvRead (port self) 12;
                  EvPrint ("Wrong first character: " ++ str_of_int (code b))]).
Proof.
  intros Hh Hw Hr Hb. framing_start Hh Hw Hr.
  unfold bind at 1, lift. rewrite py_index_first.
  apply Z.eqb_neq in Hb. rewrite Hb. cbn [negb].
  unfold bind. rewrite print_run, after_after. reflexivity.
Qed.

Lemma get_serial_number_wrong_last (self : UsbCan Handle) h st w1 b t w2 :
  ser_port self = Some h ->
  serial_write os h (command "N"%byte) (world st) = (Ok tt, w1) ->
  serial_read os h 12 w1 = (Ok (b :: t), w2) ->
  code b = 78 ->
  code (last (b :: t) b) <> 13 ->
  get_serial_number os self st =
    (Ok None,
     after st w2 [EvWrite (port self) (command "N"%byte); EvRead (port self) 12;
                  EvPrint ("Wrong last character: " ++
                           str_of_int (code (last (b :: t) b)))]).
Proof.
  intros Hh Hw Hr Hb Hl. framing_start Hh Hw Hr.
  unfold bind at 1, lift. rewrite py_index_first.
  apply Z.eqb_eq in Hb. rewrite Hb. cbn [negb].
  unfold bind at 1. rewrite py_index_last.
  apply Z.eqb_neq in Hl. rewrite Hl. cbn [negb].
  unfold bind. rewrite print_run, after_after. reflexivity.
Qed.

Lemma get_serial_number_framed (self : UsbCan Handle) h st w1 b t w2 :
  ser_port self = Some h ->
  serial_write os h (command "N"%byte) (world st) = (Ok tt, w1) ->
  serial_read os h 12 w1 = (Ok (b :: t), w2) ->
  code b = 78 ->
  code (last (b :: t) b) = 13 ->
  get_serial_number os self st =
    (Ok (Some (py_slice (b :: t) (Some 1) (Some (py_len (b :: t) - 2)))),
     after st w2 [EvWrite (port self) (command "N"%byte); EvRead (port self) 12]).
Proof.
  intros Hh Hw Hr Hb Hl. framing_start Hh Hw Hr.
  unfold bind at 1, lift. rewrite py_index_first.
  apply Z.eqb_eq in Hb. rewrite Hb. cbn [negb].
  unfold bind at 1. rewrite py_index_last.
  apply Z.eqb_eq in Hl. rewrite Hl. reflexivity.
Qed.

(** *** get_version_info *)

Lemma get_version_info_write_error (self : UsbCan Handle) h st msg w1 :
  ser_port self = Some h ->
  serial_write os h (command "V"%byte) (world st) = (Raise (SerialException msg), w1) ->
  get_version_info os self st =
    (Ok None, after st w1 [EvWrite (port self) (command "V"%byte); EvPrint msg]).
Proof.
  intros Hh Hw. unfold get_version_info.
  rewrite (bind_ok _ _ _ _ _ (guarded_write_error _ _ _ _ _ _ Hh Hw)).
  reflexivity.
Qed.

Lemma get_version_info_empty (self : UsbCan Handle) h st w1 w2 :
  ser_port self = Some h ->
  serial_write os h (command "V"%byte) (world st) = (Ok tt, w1) ->
  serial_read os h 6 w1 = (Ok [], w2) ->
  get_version_info os self st =
    (Raise IndexError,
     after st w2 [EvWrite (port self) (command "V"%byte); EvRead (port self) 6]).
Proof.
  intros Hh Hw Hr. framing_start Hh Hw Hr.
  unfold bind, lift. rewrite py_index_nil. reflexivity.
Qed.

Lemma get_version_info_wrong_first (self : UsbCan Handle) h st w1 b t w2 :
  ser_port self = Some h ->
  serial_write os h (command "V"%byte) (world st) = (Ok tt, w1) ->
  serial_read os h 6 w1 = (Ok (b :: t), w2) ->
  code b <> 86 ->
  get_version_info os self st =
    (Ok None,
     after st w2 [EvWrite (port self) (command "V"%byte); EvRead (port self) 6;
                  EvPrint ("Wrong first character: " ++ str_of_int (code b))]).
Proof.
  intros Hh Hw Hr Hb. framing_start Hh Hw Hr.
  unfold bind at 1, lift. rewrite py_index_first.
  apply Z.eqb_neq in Hb. rewrite Hb. cbn [negb].
  unfold bind. rewrite print_run, after_after. reflexivity.
Qed.

Lemma get_version_info_wrong_last (self : UsbCan Handle) h st w1 b t w2 :
  ser_port self = Some h ->
  serial_write os h (command "V"%byte) (world st) = (Ok tt, w1) ->
  serial_read os h 6 w1 = (Ok (b :: t), w2) ->
  code b = 86 ->
  code (last (b :: t) b) <> 13 ->
  get_version_info os self st =
    (Ok None,
     after st w2 [EvWrite (port self) (command "V"%byte); EvRead (port self) 6;
                  EvPrint ("Wrong last character: " ++
                           str_of_int (code (last (b :: t) b)))]).
Proof.
  intros Hh Hw Hr Hb Hl. framing_start Hh Hw Hr.
  unfold bind at 1, lift. rewrite py_index_first.
  apply Z.eqb_eq in Hb. rewrite Hb. cbn [negb].
  unfold bind at 1. rewrite py_index_last.
  apply Z.eqb_neq in Hl. rewrite Hl. cbn [negb].
  unfold bind. rewrite print_run, after_after. reflexivity.
Qed.

Lemma get_version_info_framed (self : UsbCan Handle) h st w1 b t w2 :
  ser_port self = Some h ->
  serial_write os h (command "V"%byte) (world st) = (Ok tt, w1) ->
  serial_read os h 6 w1 = (Ok (b :: t), w2) ->
  code b = 86 ->
  code (last (b :: t) b) = 13 ->
  get_version_info os self st =
    (Ok (Some (py_slice (b :: t) (Some 1) (Some (py_len (b :: t) - 1)))),
     after st w2 [EvWrite (port self) (command "V"%byte); EvRead (port self) 6]).
Proof.
  intros Hh Hw Hr Hb Hl. framing_start Hh Hw Hr.
  unfold bind at 1, lift. rewrite py_index_first.
  apply Z.eqb_eq in Hb. rewrite Hb. cbn [negb].
  unfold bind at 1. rewrite py_index_last.
  apply Z.eqb_eq in Hl. rewrite Hl. reflexivity.
Qed.

(** *** init_serial_port and the loop body *)

Lemma init_serial_port_ok item (st : State World) h w :
  serial_for_url os item (world st) = (Ok h, w) ->
  init_serial_port os (UsbCan_init item) st =
    (Ok (true, {| port := item; ser_port := Some h |}),
     after st w [EvOpen item]).
Proof.
  intros H. unfold init_serial_port, try_except, bind, os_call.
  cbn [port UsbCan_init]. rewrite H. reflexivity.
Qed.

Lemma init_serial_port_error item (st : State World) e msg w :
  serial_for_url os item (world st) = (Raise e, w) ->
  serial_or_broken_pipe e = Some msg ->
  init_serial_port os (UsbCan_init item) st =
    (Ok (false, UsbCan_init item), after st w [EvOpen item; EvPrint msg]).
Proof.
  intros H He. unfold init_serial_port, try_except, bind, os_call.
  cbn [port UsbCan_init]. rewrite H. cbn [fst snd]. rewrite He.
  unfold print, ret, after. cbn. now rewrite <- app_assoc.
Qed.

(** A failed check prints its lines and leaves through [sys.exit(1)]. *)
Lemma check_device_failed item st st' msgs :
  failed_check os item st st' msgs ->
  check_device os item st =
    (Raise (SystemExit 1), after st' (world st') (map EvPrint msgs)).
Proof.
  intros H. unfold check_device.
  destruct H as [st1 u st2 Hp Hi
                | st1 u st2 st3 Hp Hi Hc
                | st1 u st2 st3 sn st4 Hp Hi Hc Hs Ht
                | st1 u st2 st3 sn st4 ver st5 Hp Hi Hc Hs Ht Hv Hf].
  - rewrite (bind_ok _ _ _ _ _ Hp), (bind_ok _ _ _ _ _ Hi). cbn [fst snd negb].
    unfold bind, print, sys_exit, raise, after. reflexivity.
  - rewrite (bind_ok _ _ _ _ _ Hp), (bind_ok _ _ _ _ _ Hi). cbn [fst snd negb].
    rewrite (bind_ok _ _ _ _ _ Hc). cbn [negb].
    unfold bind, print, sys_exit, raise, after. cbn. now rewrite <- app_assoc.
  - rewrite (bind_ok _ _ _ _ _ Hp), (bind_ok _ _ _ _ _ Hi). cbn [fst snd negb].
    rewrite (bind_ok _ _ _ _ _ Hc). cbn [negb].
    rewrite (bind_ok _ _ _ _ _ Hs), Ht. cbn [negb].
    unfold bind, print, sys_exit, raise, after. reflexivity.
  - rewrite (bind_ok _ _ _ _ _ Hp), (bind_ok _ _ _ _ _ Hi). cbn [fst snd negb].
    rewrite (bind_ok _ _ _ _ _ Hc). cbn [negb].
    rewrite (bind_ok _ _ _ _ _ Hs), Ht. cbn [negb].
    rewrite (bind_ok _ _ _ _ _ Hv), Hf. cbn [negb].
    unfold bind, print, sys_exit, raise, after. reflexivity.
Qed.

(** When the four checks pass, the loop body goes on to decode the
    version. *)
Lemma check_device_checked item st st1 u st2 st3 ser_num st4 ver st5 :
  linux_probes os (UsbCan_init item) st = (Ok tt, st1) ->
  init_serial_port os (UsbCan_init item) st1 = (Ok (true, u), st2) ->
  close_can_channel os u st2 = (Ok true, st3) ->
  get_serial_number os u st3 = (Ok ser_num, st4) ->
  truthy ser_num = true ->
  get_version_info os u st4 = (Ok ver, st5) ->
  truthy ver = true ->
  check_device os item st =
    bind (lift (decode_version ver)) (fun v =>
    bind (print "Found VSCAN device with the following info:") (fun _ =>
    bind (lift (decode_opt ser_num)) (fun sn =>
    bind (print (summary (port u) sn v)) (fun _ => close os u)))) st5.
Proof.
  intros Hp Hi Hc Hs Ht Hv Hf. unfold check_device.
  rewrite (bind_ok _ _ _ _ _ Hp), (bind_ok _ _ _ _ _ Hi). cbn [fst snd negb].
  rewrite (bind_ok _ _ _ _ _ Hc). cbn [negb].
  rewrite (bind_ok _ _ _ _ _ Hs), Ht. cbn [negb].
  rewrite (bind_ok _ _ _ _ _ Hv), Hf. cbn [negb].
  reflexivity.
Qed.

(** *** Version decoding *)

Lemma decode_version_digits b0 b1 b2 b3 :
  decode_version (Some [b0; b1; b2; b3]) =
    rbind (py_int16 [b2]) (fun vmaj =>
    rbind (py_int16 [b3]) (fun vmin =>
    rbind (py_int16 [b0]) (fun hmaj =>
    rbind (py_int16 [b1]) (fun hmin =>
    Ok {| ver_major := vmaj; ver_minor := vmin;
          hw_major := hmaj; hw_minor := hmin |})))).
Proof. reflexivity. Qed.

Lemma decode_version_well_formed b0 b1 b2 b3 :
  well_formed_payload [b0; b1; b2; b3] = true ->
  decode_version (Some [b0; b1; b2; b3]) =
    Ok {| ver_major := digit b2; ver_minor := digit b3;
          hw_major := digit b0; hw_minor := digit b1 |}.
Proof.
  unfold well_formed_payload. cbn [List.length Nat.eqb forallb andb].
  rewrite !andb_true_iff. unfold is_hex_digit, digit.
  intros (H0 & H1 & H2 & H3 & _).
  rewrite decode_version_digits, !py_int16_digit.
  destruct (hex_digit_value b0); [| discriminate].
  destruct (hex_digit_value b1); [| discriminate].
  destruct (hex_digit_value b2); [| discriminate].
  destruct (hex_digit_value b3); [| discriminate].
  reflexivity.
Qed.

Lemma decode_version_bad_digit ver :
  List.length ver = 4%nat ->
  forallb is_hex_digit ver = false ->
  decode_version (Some ver) = Raise ValueError.
Proof.
  intros Hlen Hbad.
  destruct ver as [|b0 [|b1 [|b2 [|b3 [|? ?]]]]]; try discriminate Hlen.
  rewrite decode_version_digits, !py_int16_digit.
  cbn [forallb] in Hbad. unfold is_hex_digit in Hbad.
  destruct (hex_digit_value b2); [| reflexivity].
  destruct (hex_digit_value b3); [| reflexivity].
  destruct (hex_digit_value b0); [| reflexivity].
  destruct (hex_digit_value b1); [| reflexivity].
  discriminate Hbad.
Qed.

(** *** The trace only grows *)

Lemma grows_ret {A} (a : A) : grows (World := World) (ret a).
Proof. intros st. exists []. cbn. now rewrite app_nil_r. Qed.

Lemma grows_raise {A} e : grows (World := World) (A := A) (raise e).
Proof. intros st. exists []. cbn. now rewrite app_nil_r. Qed.

Lemma grows_lift {A} (r : Res A) : grows (World := World) (lift r).
Proof. intros st. exists []. cbn. now rewrite app_nil_r. Qed.

Lemma grows_print text : grows (World := World) (print text).
Proof. intros st. now exists [EvPrint text]. Qed.

Lemma grows_os_call {A} ev (op : World -> Res A * World) : grows (os_call ev op).
Proof. intros st. now exists [ev]. Qed.

Lemma grows_bind {A B} (m : M World A) (k : A -> M World B) :
  grows m -> (forall a, grows (k a)) -> grows (bind m k).
Proof.
  intros Hm Hk st. unfold bind. destruct (Hm st) as [l1 H1].
  destruct (m st) as [[a|e] st1]; cbn [snd] in *.
  - destruct (Hk a st1) as [l2 H2]. exists (l1 ++ l2)%list.
    now rewrite H2, H1, app_assoc.
  - now exists l1.
Qed.

Lemma grows_try_except {A} (m : M World A) sel h :
  grows m -> (forall err, grows (h err)) -> grows (try_except m sel h).
Proof.
  intros Hm Hh st. unfold try_except. destruct (Hm st) as [l1 H1].
  destruct (m st) as [[a|e] st1]; cbn [snd] in *.
  - now exists l1.
  - destruct (sel e) as [err|].
    + destruct (Hh err st1) as [l2 H2]. exists (l1 ++ l2)%list.
      now rewrite H2, H1, app_assoc.
    + now exists l1.
Qed.

Lemma grows_on_ser_port {A} (self : UsbCan Handle) (f : Handle -> M World A) :
  (forall h, grows (f h)) -> grows (on_ser_port self f).
Proof.
  intros H. unfold on_ser_port. destruct (ser_port self); [apply H | apply grows_raise].
Qed.

Ltac grows_step :=
  first
    [ apply grows_ret | apply grows_raise | apply grows_lift
    | apply grows_print | apply grows_os_call
    | apply grows_bind; [| intros ?]
    | apply grows_try_except; [| intros ?]
    | apply grows_on_ser_port; intros ?
    | match goal with
      | |- grows (if ?c then _ else _) => destruct c
      | |- grows (match ?c with _ => _ end) => destruct c
      end ].

Lemma grows_get_version_info (self : UsbCan Handle) :
  grows (get_version_info os self).
Proof.
  unfold get_version_info, ser_port_write, ser_port_read, sys_exit.
  repeat grows_step.
Qed.

Lemma grows_close (self : UsbCan Handle) : grows (close os self).
Proof. unfold close. repeat grows_step. Qed.

(** What follows the serial-number query in the loop body grows the
    trace too. *)
Lemma grows_after_serial_number (u : UsbCan Handle) ser_num :
  grows (if negb (truthy ser_num) then
           bind (print "Failed to get the serial number") (fun _ => sys_exit 1)
         else
           bind (get_version_info os u) (fun ver =>
           if negb (truthy ver) then
             bind (print "Failed to get the firmware version") (fun _ => sys_exit 1)
           else
             bind (lift (decode_version ver)) (fun v =>
             bind (print "Found VSCAN device with the following info:") (fun _ =>
             bind (lift (decode_opt ser_num)) (fun sn =>
             bind (print (summary (port u) sn v)) (fun _ => close os u)))))).
Proof.
  unfold sys_exit.
  destruct (negb (truthy ser_num)); [repeat grows_step |].
  apply grows_bind; [apply grows_get_version_info |]. intros ver.
  destruct (negb (truthy ver)); [repeat grows_step |].
  repeat (first [apply grows_close | grows_step]).
Qed.

Lemma bytes_eqb_single a b : bytes_eqb [a] [b] = true <-> a = b.
Proof.
  unfold bytes_eqb. destruct (list_eq_dec byte_eq_dec [a] [b]) as [H|H].
  - split; [intros _; congruence | reflexivity].
  - split; [discriminate | intros ->; now elim H].
Qed.

Lemma close_verdict b :
  bytes_eqb [b] VSCAN_KO || bytes_eqb [b] VSCAN_OK = true <-> b = CR \/ b = BEL.
Proof.
  unfold VSCAN_KO, VSCAN_OK. rewrite orb_true_iff, !bytes_eqb_single. tauto.
Qed.

(** ** The claims about the tester, for every operating system *)

(** C3: with the command written and one byte read back,
    [close_can_channel] returns [True] exactly when that byte is the
    carriage return or the bell, and [False] for every other byte; and
    when the byte is the bell the loop body goes on to write the
    serial-number query [N] to the port. *)
Theorem C3_close_accepts_ack_and_nak :
  (forall (self : UsbCan Handle) h st w1 b w2,
      ser_port self = Some h ->
      serial_write os h (command "C"%byte) (world st) = (Ok tt, w1) ->
      serial_read os h 1 w1 = (Ok [b], w2) ->
      (fst (close_can_channel os self st) = Ok true <-> (b = CR \/ b = BEL)) /\
      (fst (close_can_channel os self st) = Ok false <-> (b <> CR /\ b <> BEL))) /\
  (forall item st st1 h w0 w1 w2,
      linux_probes os (UsbCan_init item) st = (Ok tt, st1) ->
      serial_for_url os item (world st1) = (Ok h, w0) ->
      serial_write os h (command "C"%byte) w0 = (Ok tt, w1) ->
      serial_read os h 1 w1 = (Ok [BEL], w2) ->
      exists later,
        trace (snd (check_device os item st)) =
          (trace st1 ++
           [EvOpen item; EvWrite item (command "C"%byte); EvRead item 1;
            EvWrite item (command "N"%byte)] ++ later)%list).
Proof.
  split.
  - intros self h st w1 b w2 Hh Hw Hr.
    rewrite (close_can_channel_reply _ _ _ _ _ _ Hh Hw Hr). cbn [fst].
    pose proof (close_verdict b) as Hv.
    destruct (bytes_eqb [b] VSCAN_KO || bytes_eqb [b] VSCAN_OK).
    + split.
      * split; [intros _; now apply Hv | reflexivity].
      * split; [discriminate |].
        intros [H1 H2]. destruct (proj1 Hv eq_refl); contradiction.
    + assert (Hn : ~ (b = CR \/ b = BEL)) by (intros H; apply Hv in H; discriminate).
      split.
      * split; [discriminate | intros H; contradiction].
      * split; [| reflexivity].
        intros _. split; intros ->; apply Hn; auto.
  - intros item st st1 h w0 w1 w2 Hp Ho Hw Hr.
    set (u := {| port := item; ser_port := Some h |}).
    assert (Hc : close_can_channel os u (after st1 w0 [EvOpen item]) =
                 (Ok true, after st1 w2 [EvOpen item; EvWrite item (command "C"%byte);
                                         EvRead item 1])).
    { rewrite (close_can_channel_reply u h (after st1 w0 [EvOpen item]) w1 [BEL] w2
                 eq_refl Hw Hr).
      rewrite after_after. reflexivity. }
    unfold check_device.
    rewrite (bind_ok _ _ _ _ _ Hp),
            (bind_ok _ _ _ _ _ (init_serial_port_ok _ _ _ _ Ho)).
    cbn [fst snd negb]. fold u.
    rewrite (bind_ok _ _ _ _ _ Hc). cbn [negb].
    set (st3 := after st1 w2 _).
    unfold get_serial_number.
    set (guard := try_except _ _ _).
    unfold bind at 1. unfold bind at 1.
    destruct (guard st3) as [r st4] eqn:Hg.
    assert (Ht : exists l, trace st4 = (trace st3 ++ EvWrite item (command "N"%byte) :: l)%list).
    { subst guard. unfold try_except, bind, ser_port_write, on_ser_port, os_call in Hg.
      cbn [ser_port u port] in Hg.
      destruct (serial_write os h (command "N"%byte) (world st3)) as [[[]|e] w3];
        cbn [fst snd] in Hg.
      - inversion Hg; subst. now exists [].
      - destruct (serial_exception e) as [msg|].
        + inversion Hg; subst. exists [EvPrint msg]. cbn. now rewrite <- app_assoc.
        + inversion Hg; subst. now exists []. }
    destruct Ht as [l Ht].
    assert (Hrest : forall m : M World unit, grows m ->
              exists later, trace (snd (m st4)) =
                (trace st1 ++ [EvOpen item; EvWrite item (command "C"%byte); EvRead item 1;
                               EvWrite item (command "N"%byte)] ++ later)%list).
    { intros m Hm. destruct (Hm st4) as [l' Hl']. exists (l ++ l')%list.
      rewrite Hl', Ht. subst st3. cbn [trace after].
      rewrite <- !app_assoc. reflexivity. }
    destruct r as [written|e].
    + apply (Hrest (bind _ _)).
      apply grows_bind; [| intros ser_num; apply grows_after_serial_number].
      destruct (negb written); unfold ser_port_read; repeat grows_step.
    + apply (Hrest (raise e)). apply grows_raise.
Qed.




Lemma map_to_upper_fixed p :
  forallb is_upper_hex_digit p = true -> map to_upper p = p.
Proof.
  induction p as [|b p IH]; [reflexivity |].
  cbn [forallb map]. rewrite andb_true_iff. intros [Hb Hp].
  now rewrite (to_upper_fixed b Hb), (IH Hp).
Qed.

Lemma decode_version_upper p q :
  well_formed_payload p = true -> well_formed_payload q = true ->
  decode_version (Some p) = decode_version (Some q) ->
  map to_upper p = map to_upper q.
Proof.
  intros Hp Hq.
  assert (Hshape : forall l, well_formed_payload l = true ->
            exists b0 b1 b2 b3, l = [b0; b1; b2; b3] /\
              is_hex_digit b0 = true /\ is_hex_digit b1 = true /\
              is_hex_digit b2 = true /\ is_hex_digit b3 = true).
  { intros l Hl. unfold well_formed_payload in Hl.
    apply andb_true_iff in Hl. destruct Hl as [Hlen Hall].
    apply Nat.eqb_eq in Hlen.
    destruct l as [|b0 [|b1 [|b2 [|b3 [|? ?]]]]]; try discriminate Hlen.
    cbn [forallb] in Hall. rewrite !andb_true_iff in Hall.
    exists b0, b1, b2, b3. tauto. }
  destruct (Hshape p Hp) as (a0 & a1 & a2 & a3 & -> & Ha0 & Ha1 & Ha2 & Ha3).
  destruct (Hshape q Hq) as (c0 & c1 & c2 & c3 & -> & Hc0 & Hc1 & Hc2 & Hc3).
  rewrite (decode_version_well_formed _ _ _ _ Hp),
          (decode_version_well_formed _ _ _ _ Hq).
  intros [= H2 H3 H0 H1]. cbn [map].
  now rewrite (digit_upper_eq _ _ Ha0 Hc0 H0), (digit_upper_eq _ _ Ha1 Hc1 H1),
              (digit_upper_eq _ _ Ha2 Hc2 H2), (digit_upper_eq _ _ Ha3 Hc3 H3).
Qed.

(** C2, amended: for a 6-byte reply made of [V], four bytes and a carriage
    return, [get_version_info] returns the four bytes in the middle; a
    payload of four hexadecimal digits decodes to hardware-major from byte
    0, hardware-minor from byte 1, firmware-major from byte 2 and
    firmware-minor from byte 3, each the value of its one digit, in upper
    or in lower case; two well-formed payloads with the same decoding are
    equal up to the case of their letters, and equal when they have no
    lower-case letter. *)
Theorem C2_version_decoding_up_to_case :
  (forall (self : UsbCan Handle) h st w1 b0 b1 b2 b3 w2,
      ser_port self = Some h ->
      serial_write os h (command "V"%byte) (world st) = (Ok tt, w1) ->
      serial_read os h 6 w1 = (Ok ["V"%byte; b0; b1; b2; b3; CR], w2) ->
      fst (get_version_info os self st) = Ok (Some [b0; b1; b2; b3])) /\
  (forall b0 b1 b2 b3,
      well_formed_payload [b0; b1; b2; b3] = true ->
      decode_version (Some [b0; b1; b2; b3]) =
        Ok {| ver_major := digit b2; ver_minor := digit b3;
              hw_major := digit b0; hw_minor := digit b1 |}) /\
  (forall d, (d < 16)%nat ->
      digit (upper_digit_byte d) = Z.of_nat d /\
      digit (lower_digit_byte d) = Z.of_nat d) /\
  (forall p q,
      well_formed_payload p = true -> well_formed_payload q = true ->
      decode_version (Some p) = decode_version (Some q) ->
      map to_upper p = map to_upper q) /\
  (forall p q,
      well_formed_payload p = true -> well_formed_payload q = true ->
      forallb is_upper_hex_digit p = true ->
      forallb is_upper_hex_digit q = true ->
      decode_version (Some p) = decode_version (Some q) ->
      p = q).
Proof.
  repeat split.
  - intros self h st w1 b0 b1 b2 b3 w2 Hh Hw Hr.
    now rewrite (get_version_info_framed _ _ _ _ _ _ _ Hh Hw Hr eq_refl eq_refl).
  - apply decode_version_well_formed.
  - unfold digit. now rewrite hex_digit_value_upper.
  - unfold digit. now rewrite hex_digit_value_lower.
  - apply decode_version_upper.
  - intros p q Hp Hq Hup Huq H.
    rewrite <- (map_to_upper_fixed p Hup), <- (map_to_upper_fixed q Huq).
    now apply decode_version_upper.
Qed.

(** C4, amended: when the version payload has four bytes and one of them
    is not a hexadecimal digit, decoding raises [ValueError]; nothing
    catches it, so the loop body, and the loop over the ports with it, end
    by that exception in the state the version query left: nothing is
    printed, the port is not closed, and the interpreter exits with
    status 1. *)
Theorem C4_bad_version_digit_raises
  item rest st st1 u st2 st3 ser_num st4 ver st5 :
  linux_probes os (UsbCan_init item) st = (Ok tt, st1) ->
  init_serial_port os (UsbCan_init item) st1 = (Ok (true, u), st2) ->
  close_can_channel os u st2 = (Ok true, st3) ->
  get_serial_number os u st3 = (Ok ser_num, st4) ->
  truthy ser_num = true ->
  get_version_info os u st4 = (Ok (Some ver), st5) ->
  List.length ver = 4%nat ->
  forallb is_hex_digit ver = false ->
  decode_version (Some ver) = Raise ValueError /\
  check_device os item st = (Raise ValueError, st5) /\
  for_each (item :: rest) (check_device os) st = (Raise ValueError, st5) /\
  exit_status (fst (for_each (item :: rest) (check_device os) st)) = 1.
Proof.
  intros Hp Hi Hc Hs Ht Hv Hlen Hbad.
  pose proof (decode_version_bad_digit ver Hlen Hbad) as Hd.
  assert (Hver : truthy (Some ver) = true)
    by (destruct ver; [discriminate Hlen | reflexivity]).
  assert (Hrun : check_device os item st = (Raise ValueError, st5)).
  { rewrite (check_device_checked _ _ _ _ _ _ _ _ _ _ Hp Hi Hc Hs Ht Hv Hver).
    unfold bind, lift. now rewrite Hd. }
  pose proof (for_each_raise (check_device os) item rest st _ _ Hrun) as Hloop.
  rewrite Hloop. repeat split; assumption.
Qed.

Lemma framed_query_complaint_sn (self : UsbCan Handle) h st w1 buf w2 msg :
  ser_port self = Some h ->
  serial_write os h (command "N"%byte) (world st) = (Ok tt, w1) ->
  serial_read os h 12 w1 = (Ok buf, w2) ->
  framing_complaint 78 buf = Some msg ->
  get_serial_number os self st =
    (Ok None,
     after st w2 [EvWrite (port self) (command "N"%byte); EvRead (port self) 12;
                  EvPrint msg]).
Proof.
  intros Hh Hw Hr Hm. destruct buf as [|b t]; [discriminate Hm |].
  unfold framing_complaint in Hm.
  destruct (code b =? 78) eqn:Hb; cbn [negb] in Hm.
  - destruct (code (last (b :: t) b) =? 13) eqn:Hl; cbn [negb] in Hm; [discriminate |].
    injection Hm as <-.
    apply Z.eqb_eq in Hb. apply Z.eqb_neq in Hl.
    apply (get_serial_number_wrong_last _ _ _ _ _ _ _ Hh Hw Hr Hb Hl).
  - injection Hm as <-. apply Z.eqb_neq in Hb.
    apply (get_serial_number_wrong_first _ _ _ _ _ _ _ Hh Hw Hr Hb).
Qed.

Lemma framed_query_complaint_ver (self : UsbCan Handle) h st w1 buf w2 msg :
  ser_port self = Some h ->
  serial_write os h (command "V"%byte) (world st) = (Ok tt, w1) ->
  serial_read os h 6 w1 = (Ok buf, w2) ->
  framing_complaint 86 buf = Some msg ->
  get_version_info os self st =
    (Ok None,
     after st w2 [EvWrite (port self) (command "V"%byte); EvRead (port self) 6;
                  EvPrint msg]).
Proof.
  intros Hh Hw Hr Hm. destruct buf as [|b t]; [discriminate Hm |].
  unfold framing_complaint in Hm.
  destruct (code b =? 86) eqn:Hb; cbn [negb] in Hm.
  - destruct (code (last (b :: t) b) =? 13) eqn:Hl; cbn [negb] in Hm; [discriminate |].
    injection Hm as <-.
    apply Z.eqb_eq in Hb. apply Z.eqb_neq in Hl.
    apply (get_version_info_wrong_last _ _ _ _ _ _ _ Hh Hw Hr Hb Hl).
  - injection Hm as <-. apply Z.eqb_neq in Hb.
    apply (get_version_info_wrong_first _ _ _ _ _ _ _ Hh Hw Hr Hb).
Qed.


(** C7, amended: a check that fails on one port ends the whole run.  When
    a port fails to open, does not answer the close command, or gives no
    serial number or no version, the tester prints the lines of that
    failure and leaves through [sys.exit(1)] at once: the result and the
    final state are the same whatever ports remain in the list, none of
    them is visited, and the exit status is 1.  Such failures are a port
    that cannot be opened, a serial-number command that cannot be written
    and a serial-number reply with a wrong framing byte.  An exception
    that nothing catches ends the run in the same way. *)
Theorem C7_first_failure_ends_run :
  (forall item rest st st' msgs,
      failed_check os item st st' msgs ->
      for_each (item :: rest) (check_device os) st =
        (Raise (SystemExit 1), after st' (world st') (map EvPrint msgs)) /\
      for_each (item :: rest) (check_device os) st = check_device os item st /\
      exit_status (fst (for_each (item :: rest) (check_device os) st)) = 1) /\
  (forall item rest st st1 e msg w,
      linux_probes os (UsbCan_init item) st = (Ok tt, st1) ->
      serial_for_url os item (world st1) = (Raise e, w) ->
      serial_or_broken_pipe e = Some msg ->
      for_each (item :: rest) (check_device os) st =
        (Raise (SystemExit 1),
         after st1 w [EvOpen item; EvPrint msg;
                      EvPrint "Failed to open serial port"])) /\
  (forall item rest st st1 h w0 st3,
      linux_probes os (UsbCan_init item) st = (Ok tt, st1) ->
      serial_for_url os item (world st1) = (Ok h, w0) ->
      close_can_channel os {| port := item; ser_port := Some h |}
        (after st1 w0 [EvOpen item]) = (Ok true, st3) ->
      (forall msg w1,
          serial_write os h (command "N"%byte) (world st3) =
            (Raise (SerialException msg), w1) ->
          for_each (item :: rest) (check_device os) st =
            (Raise (SystemExit 1),
             after st3 w1 [EvWrite item (command "N"%byte); EvPrint msg;
                           EvPrint "Failed to get the serial number"])) /\
      (forall w1 buf w2 msg,
          serial_write os h (command "N"%byte) (world st3) = (Ok tt, w1) ->
          serial_read os h 12 w1 = (Ok buf, w2) ->
          framing_complaint 78 buf = Some msg ->
          for_each (item :: rest) (check_device os) st =
            (Raise (SystemExit 1),
             after st3 w2 [EvWrite item (command "N"%byte); EvRead item 12;
                           EvPrint msg;
                           EvPrint "Failed to get the serial number"]))) /\
  (forall item rest st e st',
      check_device os item st = (Raise e, st') ->
      for_each (item :: rest) (check_device os) st = (Raise e, st')).
Proof.
  assert (Hfail : forall item rest st st' msgs,
             failed_check os item st st' msgs ->
             for_each (item :: rest) (check_device os) st =
               (Raise (SystemExit 1), after st' (world st') (map EvPrint msgs))).
  { intros item rest st st' msgs Hf.
    apply for_each_raise, check_device_failed, Hf. }
  split; [| split; [| split]].
  - intros item rest st st' msgs Hf.
    pose proof (check_device_failed _ _ _ _ Hf) as Hd.
    rewrite (Hfail item rest st st' msgs Hf), Hd. repeat split.
  - intros item rest st st1 e msg w Hp Ho He.
    rewrite (Hfail item rest st _ _
               (failed_open os item st st1 _ _ Hp
                  (init_serial_port_error _ _ _ _ _ Ho He))).
    rewrite after_after. reflexivity.
  - intros item rest st st1 h w0 st3 Hp Ho Hc.
    pose proof (init_serial_port_ok _ _ _ _ Ho) as Hi.
    split.
    + intros msg w1 Hw.
      rewrite (Hfail item rest st _ _
                 (failed_serial_number os item st st1 _ _ st3 None _ Hp Hi Hc
                    (get_serial_number_write_error
                       {| port := item; ser_port := Some h |} h st3 msg w1
                       eq_refl Hw) eq_refl)).
      rewrite after_after. reflexivity.
    + intros w1 buf w2 msg Hw Hr Hm.
      rewrite (Hfail item rest st _ _
                 (failed_serial_number os item st st1 _ _ st3 None _ Hp Hi Hc
                    (framed_query_complaint_sn
                       {| port := item; ser_port := Some h |} h st3 w1 buf w2 msg
                       eq_refl Hw Hr Hm)
                    eq_refl)).
      rewrite after_after. reflexivity.
  - intros item rest st e st'. apply for_each_raise.
Qed.

(** *** find_ftdi_driver *)

Lemma check_lsmod_run (st : State World) r w :
  popen_stdout os ["lsmod"] (world st) = (r, w) ->
  check_lsmod os st = (scan_lsmod r, after st w [EvSpawn ["lsmod"]]).
Proof.
  intros H. unfold check_lsmod, bind, os_call, scan_lsmod, lift, after.
  rewrite H. cbn [fst snd]. destruct r as [output|e]; [| reflexivity].
  cbn [rbind]. destruct (decode_ascii output); reflexivity.
Qed.

Lemma find_ftdi_driver_result st r1 w1 r2 w2 :
  popen_stdout os ["lsmod"] (world st) = (r1, w1) ->
  popen_stdout os ["uname"; "-r"] w1 = (r2, w2) ->
  fst (find_ftdi_driver os st) =
    rbind (scan_lsmod r1) (fun loaded =>
    if loaded then Ok true else
    rbind (kernel_version r2) (fun kv =>
    if isfile os (module_file kv) w2 then Ok true else
    scan_builtin (fst (open_lines os (builtin_manifest kv) w2)))).
Proof.
  intros H1 H2. unfold find_ftdi_driver.
  unfold bind at 1. rewrite (check_lsmod_run st r1 w1 H1).
  destruct (scan_lsmod r1) as [[|]|e1]; cbn [rbind]; try reflexivity.
  unfold bind at 1, os_call at 1. cbn [world after]. rewrite H2.
  cbn [fst snd]. unfold kernel_version.
  destruct r2 as [output|e2]; cbn [rbind]; [| reflexivity].
  unfold bind at 1, lift at 1.
  destruct (decode_ascii output) as [text|e3]; cbn [rbind]; [| reflexivity].
  unfold bind at 1, lift at 1.
  destruct (split_nl text) as [|v vs]; [reflexivity |]. cbn [rbind].
  unfold bind at 1, os_call at 1. cbn [fst snd world].
  destruct (isfile os (module_file v) w2); [reflexivity |].
  unfold bind at 1, os_call at 1. cbn [fst snd world].
  unfold scan_builtin.
  destruct (fst (open_lines os (builtin_manifest v) w2)) as [mods|e4];
    cbn [rbind]; [| reflexivity].
  destruct (existsb (contains "ftdi_sio.ko") mods); reflexivity.
Qed.

(** C8, amended: [find_ftdi_driver] returns [True] at the first of its
    three checks that succeeds ([lsmod] lists the driver; else the module
    file exists; else the builtin manifest names it) and [False] when all
    three complete without success.  A module file that does not exist
    only makes the second check fail.  But nothing is caught: when
    [lsmod] or [uname] cannot be run, when their output is not ASCII, or
    when the builtin manifest cannot be opened, the exception leaves
    [find_ftdi_driver]. *)
Theorem C8_driver_checks_in_order st r1 w1 r2 w2 :
  popen_stdout os ["lsmod"] (world st) = (r1, w1) ->
  popen_stdout os ["uname"; "-r"] w1 = (r2, w2) ->
  (scan_lsmod r1 = Ok true -> fst (find_ftdi_driver os st) = Ok true) /\
  (forall e, scan_lsmod r1 = Raise e -> fst (find_ftdi_driver os st) = Raise e) /\
  (scan_lsmod r1 = Ok false ->
   (forall e, kernel_version r2 = Raise e ->
      fst (find_ftdi_driver os st) = Raise e) /\
   (forall kv, kernel_version r2 = Ok kv ->
      (isfile os (module_file kv) w2 = true ->
         fst (find_ftdi_driver os st) = Ok true) /\
      (isfile os (module_file kv) w2 = false ->
         forall r3 w3,
           open_lines os (builtin_manifest kv) w2 = (r3, w3) ->
           (forall mods, r3 = Ok mods ->
              fst (find_ftdi_driver os st) =
                Ok (existsb (contains "ftdi_sio.ko") mods)) /\
           (forall e, r3 = Raise e ->
              fst (find_ftdi_driver os st) = Raise e)))).
Proof.
  intros H1 H2. rewrite (find_ftdi_driver_result st r1 w1 r2 w2 H1 H2).
  split; [intros ->; reflexivity |].
  split; [intros e ->; reflexivity |].
  intros ->. cbn [rbind].
  split; [intros e ->; reflexivity |].
  intros kv ->. cbn [rbind].
  split; [intros ->; reflexivity |].
  intros -> r3 w3 ->. cbn [fst]. unfold scan_builtin.
  split; [intros mods -> | intros e ->]; reflexivity.
Qed.

End Generic.

(** ** The claims on the scripted systems *)

(** For a reply of twelve bytes with both framing bytes in place the
    slice keeps bytes 1 to 9: the tenth payload byte is dropped with the
    carriage return. *)
Lemma get_serial_number_twelve {World Handle} (os : OS World Handle)
  (self : UsbCan Handle) h st w1 (payload : bytes) w2 :
  ser_port self = Some h ->
  serial_write os h (command "N"%byte) (world st) = (Ok tt, w1) ->
  serial_read os h 12 w1 = (Ok ("N"%byte :: payload ++ [CR])%list, w2) ->
  List.length payload = 10%nat ->
  fst (get_serial_number os self st) = Ok (Some (firstn 9 payload)).
Proof.
  intros Hh Hw Hr Hlen.
  do 10 (destruct payload as [|? payload]; [discriminate Hlen |]).
  destruct payload; [| discriminate Hlen].
  now rewrite (get_serial_number_framed os _ _ _ _ _ _ _ Hh Hw Hr eq_refl eq_refl).
Qed.

(** C1: on the reply [N1234567890\r] the code returns [123456789], nine
    bytes, where the claim has the ten bytes [1234567890]; the summary the
    tester prints shows the shortened serial number. *)
Theorem C1_serial_number_loses_last_byte :
  fst (get_serial_number (mock_os (bench healthy_device)) (opened ttyUSB0) initial)
    = Ok (Some (encode_ascii "123456789")) /\
  fst (get_serial_number (mock_os (bench healthy_device)) (opened ttyUSB0) initial)
    <> Ok (Some (encode_ascii "1234567890")) /\
  printed (trace (snd (main (mock_os (bench healthy_device)) ttyUSB0 initial))) =
    ["Found VSCAN device with the following info:";
     "/dev/ttyUSB0 -> (SN: 123456789, FW: 3:4, HW: 1:2)"].
Proof.
  split; [reflexivity |]. split; [| reflexivity].
  intros H. vm_compute in H. discriminate H.
Qed.

(** C2, as stated, fails: the payloads [000a] and [000A] are both
    well-formed and differ, and they decode to the same four numbers. *)
Lemma C2_decoding_not_injective :
  well_formed_payload (encode_ascii "000a") = true /\
  well_formed_payload (encode_ascii "000A") = true /\
  encode_ascii "000a" <> encode_ascii "000A" /\
  decode_version (Some (encode_ascii "000a")) =
  decode_version (Some (encode_ascii "000A")).
Proof.
  repeat split; try reflexivity. intros H. vm_compute in H. discriminate H.
Qed.

Lemma C2_version_decoding_witness :
  fst (get_version_info (mock_os (bench healthy_device)) (opened ttyUSB0) initial)
    = Ok (Some (encode_ascii "1234")) /\
  decode_version (Some (encode_ascii "1aF4")) =
    Ok {| ver_major := 15; ver_minor := 4; hw_major := 1; hw_minor := 10 |} /\
  map to_upper (encode_ascii "00aB") = map to_upper (encode_ascii "00Ab").
Proof.
  destruct (C2_version_decoding_up_to_case (mock_os (bench healthy_device)))
    as (Hget & Hdec & _ & Hcase & _).
  split; [| split].
  - apply (Hget (opened ttyUSB0) ttyUSB0 initial
             [(ttyUSB0, Ok (framed "V1234"))]
             "1"%byte "2"%byte "3"%byte "4"%byte
             [(ttyUSB0, Ok []); (ttyUSB0, Ok (framed "V1234"))]);
      reflexivity.
  - apply (Hdec "1"%byte "a"%byte "F"%byte "4"%byte). reflexivity.
  - apply (Hcase (encode_ascii "00aB") (encode_ascii "00Ab")); reflexivity.
Defined.

Lemma C3_close_accepts_ack_and_nak_witness :
  (fst (close_can_channel (mock_os (bench nak_device)) (opened ttyUSB0) initial)
     = Ok true <-> (BEL = CR \/ BEL = BEL)) /\
  exists later,
    trace (snd (check_device (mock_os (bench nak_device)) ttyUSB0 initial)) =
      (trace initial ++
       [EvOpen ttyUSB0; EvWrite ttyUSB0 (command "C"%byte); EvRead ttyUSB0 1;
        EvWrite ttyUSB0 (command "N"%byte)] ++ later)%list.
Proof.
  destruct (C3_close_accepts_ack_and_nak (mock_os (bench nak_device)))
    as [Hclose Hnext].
  split.
  - apply (Hclose (opened ttyUSB0) ttyUSB0 initial
             [(ttyUSB0, Ok [BEL])] BEL
             [(ttyUSB0, Ok []); (ttyUSB0, Ok [BEL])]); reflexivity.
  - apply (Hnext ttyUSB0 initial initial ttyUSB0 []
             [(ttyUSB0, Ok [BEL])]
             [(ttyUSB0, Ok []); (ttyUSB0, Ok [BEL])]); reflexivity.
Defined.

(** C4, as stated, fails: with the version reply [V12G4\r] the tester ends
    by an uncaught [ValueError]; it prints nothing, no decode failure
    either, and the interpreter exits with status 1. *)
Lemma C4_bad_digit_escapes_as_exception :
  forallb is_hex_digit (encode_ascii "12G4") = false /\
  fst (main (mock_os (bench bad_version_device)) ttyUSB0 initial)
    = Raise ValueError /\
  printed (trace (snd (main (mock_os (bench bad_version_device)) ttyUSB0 initial)))
    = [] /\
  exit_status (fst (main (mock_os (bench bad_version_device)) ttyUSB0 initial)) = 1.
Proof. repeat split. Qed.

Lemma C4_bad_version_digit_raises_witness :
  forallb is_hex_digit (encode_ascii "12G4") = false /\
  decode_version (Some (encode_ascii "12G4")) = Raise ValueError /\
  fst (for_each [ttyUSB0; ttyUSB1]
         (check_device (mock_os (bench bad_version_device))) initial)
    = Raise ValueError.
Proof.
  edestruct (C4_bad_version_digit_raises (mock_os (bench bad_version_device))
               ttyUSB0 [ttyUSB1] initial) as (Hd & _ & Hloop & _);
    [reflexivity .. |].
  split; [reflexivity |]. split; [exact Hd |]. rewrite Hloop. reflexivity.
Defined.

(** C5: a read that times out with no byte gives the empty reply, which
    has no [N], no [V] and no carriage return; on it both parsers raise
    [IndexError] at [buf[0]] where the claim has a printed complaint and a
    return of [None], and the tester ends by that exception having printed
    nothing. *)
Theorem C5_empty_reply_raises_index_error :
  fst (get_serial_number (mock_os (bench silent_device)) (opened ttyUSB0) initial)
    = Raise IndexError /\
  fst (get_version_info (mock_os (bench silent_device)) (opened ttyUSB0) initial)
    = Raise IndexError /\
  fst (main (mock_os (bench silent_device)) ttyUSB0 initial) = Raise IndexError /\
  fst (main (mock_os (bench versionless_device)) ttyUSB0 initial) = Raise IndexError /\
  printed (trace (snd (main (mock_os (bench silent_device)) ttyUSB0 initial))) = [].
Proof. repeat split. Qed.



(** C7, as stated, fails: two adapters are enumerated, the first answers
    the serial-number query with a wrong first byte, the second is
    healthy.  The tester leaves with status 1 after the first: no event of
    the second port is in the trace, although it remained in the list and
    passes every check when it is the target. *)
Lemma C7_remaining_port_not_visited :
  fst (find_all_usb_can_devices (mock_os two_ports) initial) = Ok [ttyUSB0; ttyUSB1] /\
  fst (main (mock_os two_ports) "all" initial) = Raise (SystemExit 1) /\
  existsb (on_port ttyUSB0) (trace (snd (main (mock_os two_ports) "all" initial))) = true /\
  existsb (on_port ttyUSB1) (trace (snd (main (mock_os two_ports) "all" initial))) = false /\
  fst (main (mock_os two_ports) ttyUSB1 initial) = Ok tt.
Proof. repeat split. Qed.

Lemma C7_first_failure_ends_run_witness :
  fst (for_each [ttyUSB0; ttyUSB1] (check_device (mock_os two_ports)) initial)
    = Raise (SystemExit 1) /\
  for_each [ttyUSB0; ttyUSB1] (check_device (mock_os two_ports)) initial =
  check_device (mock_os two_ports) ttyUSB0 initial /\
  fst (for_each [ttyUSB0; ttyUSB1] (check_device (mock_os (bench broken_device)))
         initial) = Raise (SystemExit 1).
Proof.
  split; [| split].
  - edestruct (proj1 (C7_first_failure_ends_run (mock_os two_ports))
                 ttyUSB0 [ttyUSB1] initial) as (Hrun & _ & _).
    + eapply failed_serial_number; reflexivity.
    + rewrite Hrun. reflexivity.
  - edestruct (proj1 (C7_first_failure_ends_run (mock_os two_ports))
                 ttyUSB0 [ttyUSB1] initial) as (_ & Hsame & _).
    + eapply failed_serial_number; reflexivity.
    + exact Hsame.
  - edestruct (proj1 (C7_first_failure_ends_run (mock_os (bench broken_device)))
                 ttyUSB0 [ttyUSB1] initial) as (Hrun & _ & _).
    + eapply failed_close; reflexivity.
    + rewrite Hrun. reflexivity.
Defined.

(** C8, as stated, fails: on a Linux system where [lsmod] does not list
    the driver, the module file does not exist and the kernel has no
    builtin manifest, [find_ftdi_driver] does not return [False]: opening
    the manifest raises [FileNotFoundError], which leaves the function and
    ends the tester with status 1.  Likewise when [lsmod] cannot be
    run. *)
Lemma C8_missing_manifest_raises :
  fst (find_ftdi_driver (mock_os (linux_box None)) initial)
    = Raise (FileNotFoundError "/lib/modules/6.1.0-13-amd64/modules.builtin") /\
  exit_status (fst (main (mock_os (linux_box None)) "all" initial)) = 1 /\
  printed (trace (snd (main (mock_os (linux_box None)) "all" initial)))
    = ["No USB-CAN devices found"] /\
  fst (find_ftdi_driver (mock_os (bench healthy_device)) initial)
    = Raise (FileNotFoundError "no such program").
Proof. repeat split. Qed.

Lemma C8_driver_checks_in_order_witness :
  fst (find_ftdi_driver
         (mock_os (linux_box (Some ["kernel/drivers/usb/serial/ftdi_sio.ko"])))
         initial) = Ok true /\
  fst (find_ftdi_driver
         (mock_os (linux_box (Some ["kernel/drivers/usb/serial/usbserial.ko"])))
         initial) = Ok false.
Proof.
  split.
  - edestruct (C8_driver_checks_in_order
                 (mock_os (linux_box (Some ["kernel/drivers/usb/serial/ftdi_sio.ko"])))
                 initial) as (_ & _ & Hrest); [reflexivity | reflexivity |].
    destruct (Hrest eq_refl) as [_ Hkv].
    destruct (Hkv "6.1.0-13-amd64" eq_refl) as [_ Hfile].
    destruct (Hfile eq_refl _ _ eq_refl) as [Hmods _].
    rewrite (Hmods _ eq_refl). reflexivity.
  - edestruct (C8_driver_checks_in_order
                 (mock_os (linux_box (Some ["kernel/drivers/usb/serial/usbserial.ko"])))
                 initial) as (_ & _ & Hrest); [reflexivity | reflexivity |].
    destruct (Hrest eq_refl) as [_ Hkv].
    destruct (Hkv "6.1.0-13-amd64" eq_refl) as [_ Hfile].
    destruct (Hfile eq_refl _ _ eq_refl) as [Hmods _].
    rewrite (Hmods _ eq_refl). reflexivity.
Defined.



End TesterProofs.

(** ** Properties of the frame dump tool *)

Module DumpProofs.
Import Py Vscandump.

(** ** Formatting *)

Example dump_text_two_bytes :
  dump_text {| arbitration_id := 427; dlc := 2; data := [x0a; xff] |}
    = "1AB [2] 0A FF ".
Proof. reflexivity. Qed.

Example dump_text_no_payload :
  dump_text {| arbitration_id := 0; dlc := 0; data := [] |} = "0 [0] ".
Proof. reflexivity. Qed.

Lemma count_newlines_app a b :
  count_newlines (a ++ b) = (count_newlines a + count_newlines b)%nat.
Proof.
  induction a as [|c a IH]; [reflexivity |].
  cbn [append count_newlines]. rewrite IH. lia.
Qed.

Lemma upper_digits_no_newline d : count_newlines (upper_digits d) = 0%nat.
Proof. induction d; cbn [upper_digits count_newlines]; try rewrite IHd; reflexivity. Qed.

Lemma decimal_no_newline d :
  count_newlines (NilEmpty.string_of_uint d) = 0%nat.
Proof.
  induction d; cbn [NilEmpty.string_of_uint count_newlines];
    try rewrite IHd; reflexivity.
Qed.

Lemma read_upper_digits d : read_upper (upper_digits d) = Some d.
Proof.
  induction d; cbn [upper_digits read_upper]; try rewrite IHd; reflexivity.
Qed.

Lemma upper_digits_empty d : upper_digits d = EmptyString -> d = Hexadecimal.Nil.
Proof. destruct d; cbn; intros H; try discriminate H; reflexivity. Qed.

Lemma format_X_value n : upper_hex_value (format_X n) = Some n.
Proof.
  unfold upper_hex_value, format_X.
  destruct (upper_digits (N.to_hex_uint n)) eqn:E.
  - apply upper_digits_empty in E. destruct n as [|p]; [discriminate E |].
    cbn in E. now apply HexadecimalPos.Unsigned.to_uint_nonnil in E.
  - rewrite <- E, read_upper_digits. cbn [option_map].
    now rewrite HexadecimalN.Unsigned.of_to.
Qed.

Lemma format_d_value n : decimal_value (format_d n) = Some n.
Proof.
  unfold decimal_value, format_d.
  destruct (NilEmpty.string_of_uint (N.to_uint n)) eqn:E.
  - destruct n as [|p]; [discriminate E |]. cbn in E.
    destruct (Pos.to_uint p) eqn:Ep; try discriminate E.
    now apply DecimalPos.Unsigned.to_uint_nonnil in Ep.
  - rewrite <- E, NilEmpty.usu. cbn [option_map].
    now rewrite DecimalN.Unsigned.of_to.
Qed.

Lemma format_02X_byte b :
  String.length (format_02X (Byte.to_N b)) = 2%nat /\
  upper_hex_value (format_02X (Byte.to_N b)) = Some (Byte.to_N b) /\
  count_newlines (format_02X (Byte.to_N b)) = 0%nat.
Proof. destruct b; vm_compute; repeat split. Qed.

Lemma join_bytes_no_newline payload : count_newlines (join_bytes payload) = 0%nat.
Proof.
  induction payload as [|b rest IH]; [reflexivity |].
  cbn [join_bytes]. rewrite !count_newlines_app, IH.
  now rewrite (proj2 (proj2 (format_02X_byte b))).
Qed.

Lemma dump_text_no_newline msg : count_newlines (dump_text msg) = 0%nat.
Proof.
  unfold dump_text, format_X, format_d. rewrite !count_newlines_app.
  now rewrite upper_digits_no_newline, decimal_no_newline, join_bytes_no_newline.
Qed.

Lemma print_output_one_line msg :
  count_newlines (print_output (dump_text msg)) = 1%nat.
Proof.
  unfold print_output. now rewrite count_newlines_app, dump_text_no_newline.
Qed.

(** ** The loop *)

Lemma append_assoc (a b c : string) : (a ++ b) ++ c = a ++ (b ++ c).
Proof. induction a as [|x a IH]; [reflexivity |]. cbn. now rewrite IH. Qed.

Lemma append_empty (a : string) : a ++ "" = a.
Proof. induction a as [|x a IH]; [reflexivity |]. cbn. now rewrite IH. Qed.

Lemma receive_all_from_head out frames :
  receive_all {| pc := LoopHead; stdout := out |} frames =
    Some {| pc := InRecv; stdout := out ++ lines_of frames |}.
Proof.
  revert out. induction frames as [|msg rest IH]; intros out.
  - cbn. now rewrite append_empty.
  - cbn [receive_all dump_step pc stdout loop_condition lines_of].
    rewrite IH, append_assoc. reflexivity.
Qed.

Lemma reachable_in_loop s :
  reachable start s -> pc s = LoopHead \/ pc s = InRecv.
Proof.
  induction 1 as [|s s' Hreach IH Hstep]; [now left |].
  destruct Hstep as [s incoming s' Hstep]. unfold dump_step in Hstep.
  destruct IH as [Hpc | Hpc]; rewrite Hpc in Hstep.
  - cbn in Hstep. injection Hstep as <-. now right.
  - destruct incoming; [| discriminate Hstep]. injection Hstep as <-. now left.
Qed.

Lemma join_bytes_concat payload :
  join_bytes payload =
    String.concat EmptyString
      (map (fun b => format_02X (Byte.to_N b) ++ " ") payload).
Proof.
  induction payload as [|b rest IH]; [reflexivity |].
  cbn [join_bytes map]. rewrite IH. destruct rest as [|c rest].
  - reflexivity.
  - cbn [map String.concat]. symmetry. exact (append_assoc _ _ _).
Qed.

Lemma lines_of_concat frames :
  lines_of frames =
    String.concat EmptyString
      (map (fun msg => dump_text msg ++ String "010" EmptyString) frames).
Proof.
  induction frames as [|msg rest IH]; [reflexivity |].
  cbn [lines_of map]. rewrite IH. destruct rest as [|m rest].
  - cbn [map String.concat]. apply append_empty.
  - reflexivity.
Qed.

(** C9: for every frame the loop prints one line.  The text is the
    identifier in upper-case hexadecimal, a space, the length code in
    decimal between brackets, a space, and for each payload byte its two
    upper-case hexadecimal digits followed by a space (the frame 1AB of
    length 2 with bytes 0A FF prints [1AB [2] 0A FF ]); it has no line end
    in it, and receiving the frame appends exactly that text and one line
    end to standard output.  After any frames the output is their lines
    in order and the loop waits in [bus.recv()]; no state it reaches is
    past the loop: from its head it enters the receive, where it stays
    until a frame arrives. *)
Theorem C9_dump_prints_each_frame_on_a_line :
  (forall msg,
      dump_text msg =
        format_X (arbitration_id msg) ++ " [" ++ format_d (dlc msg) ++ "] " ++
        String.concat EmptyString
          (map (fun b => format_02X (Byte.to_N b) ++ " ") (data msg)) /\
      upper_hex_value (format_X (arbitration_id msg)) = Some (arbitration_id msg) /\
      decimal_value (format_d (dlc msg)) = Some (dlc msg) /\
      count_newlines (dump_text msg) = 0%nat) /\
  (forall b,
      String.length (format_02X (Byte.to_N b)) = 2%nat /\
      upper_hex_value (format_02X (Byte.to_N b)) = Some (Byte.to_N b)) /\
  dump_text {| arbitration_id := 427; dlc := 2; data := [x0a; xff] |}
    = "1AB [2] 0A FF " /\
  (forall s msg,
      pc s = InRecv ->
      dump_step s (Some msg) =
        Some {| pc := LoopHead;
                stdout := stdout s ++ dump_text msg ++ String "010" EmptyString |}) /\
  (forall frames,
      receive_all start frames =
        Some {| pc := InRecv;
                stdout :=
                  String.concat EmptyString
                    (map (fun msg => dump_text msg ++ String "010" EmptyString)
                       frames) |}) /\
  (forall s, reachable start s ->
      pc s <> AtShutdown /\ pc s <> Returned /\
      (pc s = LoopHead ->
         dump_step s None = Some {| pc := InRecv; stdout := stdout s |}) /\
      (pc s = InRecv -> dump_step s None = None)).
Proof.
  split; [| split; [| split; [| split; [| split]]]].
  - intros msg. split; [| split; [| split]].
    + unfold dump_text. now rewrite join_bytes_concat.
    + apply format_X_value.
    + apply format_d_value.
    + apply dump_text_no_newline.
  - intros b. destruct (format_02X_byte b) as (H1 & H2 & _). now split.
  - reflexivity.
  - intros s msg H. unfold dump_step. rewrite H. reflexivity.
  - intros frames. rewrite <- lines_of_concat.
    apply (receive_all_from_head EmptyString frames).
  - intros s Hs. pose proof (reachable_in_loop s Hs) as Hpc.
    split; [destruct Hpc as [-> | ->]; discriminate |].
    split; [destruct Hpc as [-> | ->]; discriminate |].
    split.
    + intros H. unfold dump_step. now rewrite H.
    + intros H. unfold dump_step. now rewrite H.
Qed.

Lemma C9_dump_prints_each_frame_on_a_line_witness :
  dump_step {| pc := InRecv; stdout := EmptyString |}
    (Some {| arbitration_id := 427; dlc := 2; data := [x0a; xff] |})
    = Some {| pc := LoopHead;
              stdout := "1AB [2] 0A FF " ++ String "010" EmptyString |} /\
  dump_step {| pc := LoopHead;
               stdout := "1AB [2] 0A FF " ++ String "010" EmptyString |} None
    = Some {| pc := InRecv;
              stdout := "1AB [2] 0A FF " ++ String "010" EmptyString |} /\
  pc {| pc := LoopHead;
        stdout := "1AB [2] 0A FF " ++ String "010" EmptyString |} <> Returned.
Proof.
  destruct C9_dump_prints_each_frame_on_a_line as (_ & _ & _ & Hstep & _ & Hreach).
  assert (Hr : reachable start
                 {| pc := LoopHead;
                    stdout := "1AB [2] 0A FF " ++ String "010" EmptyString |}).
  { apply (reach_step start {| pc := InRecv; stdout := EmptyString |}).
    - apply (reach_step start start); [apply reach_refl |].
      apply (step_intro start None). reflexivity.
    - apply (step_intro _
               (Some {| arbitration_id := 427; dlc := 2; data := [x0a; xff] |})).
      reflexivity. }
  split; [| split].
  - apply (Hstep {| pc := InRecv; stdout := EmptyString |}
             {| arbitration_id := 427; dlc := 2; data := [x0a; xff] |}).
    reflexivity.
  - apply (Hreach _ Hr). reflexivity.
  - apply (Hreach _ Hr).
Defined.

End DumpProofs.

(** ** Further properties of the device tester *)

Module TesterExtras.
Import Py Vscantester TesterProofs.

(** ** Slices of a framed reply *)

Lemma last_framed (x : byte) (p : bytes) (y : byte) :
  last (x :: p ++ [y])%list x = y.
Proof. change (x :: p ++ [y])%list with ((x :: p) ++ [y])%list. apply last_last. Qed.

Lemma py_slice_unframe (x : byte) (p : bytes) (y : byte) :
  py_slice (x :: p ++ [y])%list (Some 1) (Some (py_len (x :: p ++ [y])%list - 1)) = p.
Proof.
  unfold py_slice, slice_bound, py_len.
  cbn [List.length]. rewrite length_app. cbn [List.length].
  set (n := List.length p).
  replace (Z.of_nat (S (n + 1))) with (Z.of_nat n + 2) by lia.
  replace (Z.of_nat n + 2 - 1) with (Z.of_nat n + 1) by lia.
  cbn [Z.ltb Z.compare].
  destruct (Z.of_nat n + 1 <? 0) eqn:H1; [apply Z.ltb_lt in H1; lia |].
  rewrite H1.
  destruct (Z.of_nat n + 2 <? 1) eqn:H2; [apply Z.ltb_lt in H2; lia |].
  destruct (Z.of_nat n + 2 <? Z.of_nat n + 1) eqn:H3; [apply Z.ltb_lt in H3; lia |].
  replace (Z.to_nat (Z.of_nat n + 1 - 1)) with n by lia.
  change (Z.to_nat 1) with 1%nat. cbn [skipn].
  subst n. rewrite firstn_app, Nat.sub_diag, firstn_all. cbn [firstn].
  apply app_nil_r.
Qed.

Lemma py_slice_unframe_short (x : byte) (p : bytes) (y : byte) :
  py_slice (x :: p ++ [y])%list (Some 1) (Some (py_len (x :: p ++ [y])%list - 2))
    = removelast p.
Proof.
  unfold py_slice, slice_bound, py_len.
  cbn [List.length]. rewrite length_app. cbn [List.length].
  set (n := List.length p).
  replace (Z.of_nat (S (n + 1))) with (Z.of_nat n + 2) by lia.
  replace (Z.of_nat n + 2 - 2) with (Z.of_nat n) by lia.
  cbn [Z.ltb Z.compare].
  destruct (Z.of_nat n <? 0) eqn:H1; [apply Z.ltb_lt in H1; lia |].
  rewrite H1.
  destruct (Z.of_nat n + 2 <? 1) eqn:H2; [apply Z.ltb_lt in H2; lia |].
  destruct (Z.of_nat n + 2 <? Z.of_nat n) eqn:H3; [apply Z.ltb_lt in H3; lia |].
  replace (Z.to_nat (Z.of_nat n - 1)) with (n - 1)%nat by lia.
  change (Z.to_nat 1) with 1%nat. cbn [skipn].
  subst n. rewrite firstn_app.
  replace (List.length p - 1 - List.length p)%nat with 0%nat by lia.
  cbn [firstn]. rewrite app_nil_r.
  rewrite removelast_firstn_len. f_equal. lia.
Qed.

Lemma code_is_N b : code b = 78 -> b = "N"%byte.
Proof. destruct b; intros H; vm_compute in H; try discriminate H; reflexivity. Qed.

Lemma code_is_V b : code b = 86 -> b = "V"%byte.
Proof. destruct b; intros H; vm_compute in H; try discriminate H; reflexivity. Qed.

Lemma code_is_CR b : code b = 13 -> b = CR.
Proof. destruct b; intros H; vm_compute in H; try discriminate H; reflexivity. Qed.

(** ** Lines and substrings *)

Lemma prefix_empty t : String.prefix EmptyString t = true.
Proof. now destruct t. Qed.

Lemma prefix_first_line n t :
  single_line n = true ->
  String.prefix n t = String.prefix n (hd EmptyString (split_nl t)).
Proof.
  revert t. induction n as [|a n IH]; intros t Hn; [now rewrite !prefix_empty |].
  cbn [single_line] in Hn. apply andb_true_iff in Hn. destruct Hn as [Ha Hn].
  apply negb_true_iff, Ascii.eqb_neq in Ha.
  destruct t as [|c t]; [reflexivity |].
  cbn [split_nl]. destruct (Ascii.eqb c newline) eqn:Hc.
  - apply Ascii.eqb_eq in Hc. subst c. cbn [hd String.prefix].
    destruct (ascii_dec a newline); [contradiction | reflexivity].
  - cbn [String.prefix]. specialize (IH t Hn).
    destruct (split_nl t) as [|h r]; cbn [hd String.prefix] in *;
      destruct (ascii_dec a c); try reflexivity; exact IH.
Qed.

Lemma split_nl_nonempty t : split_nl t <> [].
Proof.
  destruct t as [|c t]; [discriminate |]. cbn [split_nl].
  destruct (Ascii.eqb c newline); [discriminate |].
  destruct (split_nl t); discriminate.
Qed.

(** A text without a line end is found in one of the lines exactly when
    it is found in the whole text. *)
Lemma contains_lines n t :
  single_line n = true ->
  existsb (contains n) (split_nl t) = contains n t.
Proof.
  intros Hn. induction t as [|c t IH].
  - cbn. now rewrite orb_false_r.
  - pose proof (prefix_first_line n (String c t) Hn) as Hp.
    cbn [split_nl] in *. destruct (Ascii.eqb c newline) eqn:Hc.
    + cbn [existsb hd] in *. rewrite IH. cbn [contains].
      rewrite Hp, orb_false_r. reflexivity.
    + destruct (split_nl t) as [|h r] eqn:E; [now apply split_nl_nonempty in E |].
      cbn [existsb hd] in *. cbn [contains]. rewrite Hp, <- IH.
      now rewrite orb_assoc.
Qed.

Section Generic.

Context {World Handle : Type}.
Variable os : OS World Handle.

(** ** Opening the port *)

(** X1: [init_serial_port] returns [True] with the handle stored exactly
    when [serial_for_url] succeeds; a [SerialException] or a
    [BrokenPipeError] is printed and gives [False] with the object left
    as it was; any other exception leaves the method, nothing printed. *)
Theorem X1_init_serial_port_outcomes (self : UsbCan Handle) st :
  (forall h w,
      serial_for_url os (port self) (world st) = (Ok h, w) ->
      init_serial_port os self st =
        (Ok (true, {| port := port self; ser_port := Some h |}),
         after st w [EvOpen (port self)])) /\
  (forall e w msg,
      serial_for_url os (port self) (world st) = (Raise e, w) ->
      serial_or_broken_pipe e = Some msg ->
      init_serial_port os self st =
        (Ok (false, self), after st w [EvOpen (port self); EvPrint msg])) /\
  (forall e w,
      serial_for_url os (port self) (world st) = (Raise e, w) ->
      serial_or_broken_pipe e = None ->
      init_serial_port os self st = (Raise e, after st w [EvOpen (port self)])).
Proof.
  unfold init_serial_port, try_except, bind, os_call.
  split; [| split].
  - intros h w H. rewrite H. reflexivity.
  - intros e w msg H He. rewrite H. cbn [fst snd]. rewrite He.
    unfold print, ret, after. cbn. now rewrite <- app_assoc.
  - intros e w H He. rewrite H. cbn [fst snd]. rewrite He. reflexivity.
Qed.

(** ** The framed queries *)

(** The guarded write of the three exchanges, for every outcome of
    [write]. *)
Lemma guarded_write_run (self : UsbCan Handle) h data st r w :
  ser_port self = Some h ->
  serial_write os h data (world st) = (r, w) ->
  try_except (bind (ser_port_write os self data) (fun _ => ret true))
    serial_exception (fun err => bind (print err) (fun _ => ret false)) st
  = match r with
    | Ok _ => (Ok true, after st w [EvWrite (port self) data])
    | Raise e =>
        match serial_exception e with
        | Some msg => (Ok false, after st w [EvWrite (port self) data; EvPrint msg])
        | None => (Raise e, after st w [EvWrite (port self) data])
        end
    end.
Proof.
  intros Hh Hw. unfold try_except, bind.
  rewrite (write_run os _ _ _ _ _ _ Hh Hw).
  destruct r as [[]|e]; [reflexivity |].
  destruct (serial_exception e); [| reflexivity].
  rewrite print_run, after_after. reflexivity.
Qed.

Lemma get_version_info_unframed (self : UsbCan Handle) h st w1 (p : bytes) w2 :
  ser_port self = Some h ->
  serial_write os h (command "V"%byte) (world st) = (Ok tt, w1) ->
  serial_read os h 6 w1 = (Ok ("V"%byte :: p ++ [CR])%list, w2) ->
  get_version_info os self st =
    (Ok (Some p),
     after st w2 [EvWrite (port self) (command "V"%byte); EvRead (port self) 6]).
Proof.
  intros Hh Hw Hr.
  rewrite (get_version_info_framed os _ _ _ _ _ _ _ Hh Hw Hr eq_refl).
  - now rewrite py_slice_unframe.
  - now rewrite last_framed.
Qed.

Lemma get_serial_number_unframed (self : UsbCan Handle) h st w1 (p : bytes) w2 :
  ser_port self = Some h ->
  serial_write os h (command "N"%byte) (world st) = (Ok tt, w1) ->
  serial_read os h 12 w1 = (Ok ("N"%byte :: p ++ [CR])%list, w2) ->
  get_serial_number os self st =
    (Ok (Some (removelast p)),
     after st w2 [EvWrite (port self) (command "N"%byte); EvRead (port self) 12]).
Proof.
  intros Hh Hw Hr.
  rewrite (get_serial_number_framed os _ _ _ _ _ _ _ Hh Hw Hr eq_refl).
  - now rewrite py_slice_unframe_short.
  - now rewrite last_framed.
Qed.

Lemma get_serial_number_read_raise (self : UsbCan Handle) h st w1 e w2 :
  ser_port self = Some h ->
  serial_write os h (command "N"%byte) (world st) = (Ok tt, w1) ->
  serial_read os h 12 w1 = (Raise e, w2) ->
  get_serial_number os self st =
    (Raise e, after st w2 [EvWrite (port self) (command "N"%byte);
                           EvRead (port self) 12]).
Proof.
  intros Hh Hw Hr. unfold get_serial_number.
  rewrite (bind_ok _ _ _ _ _ (guarded_write_ok os _ _ _ _ _ Hh Hw)). cbn [negb].
  rewrite (bind_raise _ _ _ _ _ (read_run os _ _ _ (after _ _ _) _ _ Hh Hr)).
  now rewrite after_after.
Qed.

Lemma get_version_info_read_raise (self : UsbCan Handle) h st w1 e w2 :
  ser_port self = Some h ->
  serial_write os h (command "V"%byte) (world st) = (Ok tt, w1) ->
  serial_read os h 6 w1 = (Raise e, w2) ->
  get_version_info os self st =
    (Raise e, after st w2 [EvWrite (port self) (command "V"%byte);
                           EvRead (port self) 6]).
Proof.
  intros Hh Hw Hr. unfold get_version_info.
  rewrite (bind_ok _ _ _ _ _ (guarded_write_ok os _ _ _ _ _ Hh Hw)). cbn [negb].
  rewrite (bind_raise _ _ _ _ _ (read_run os _ _ _ (after _ _ _) _ _ Hh Hr)).
  now rewrite after_after.
Qed.

Lemma get_serial_number_write_raise (self : UsbCan Handle) h st e w1 :
  ser_port self = Some h ->
  serial_write os h (command "N"%byte) (world st) = (Raise e, w1) ->
  get_serial_number os self st =
    match serial_exception e with
    | Some msg => (Ok None, after st w1 [EvWrite (port self) (command "N"%byte);
                                         EvPrint msg])
    | None => (Raise e, after st w1 [EvWrite (port self) (command "N"%byte)])
    end.
Proof.
  intros Hh Hw. unfold get_serial_number.
  pose proof (guarded_write_run _ _ _ _ _ _ Hh Hw) as Hg. cbn iota in Hg.
  destruct (serial_exception e).
  - now rewrite (bind_ok _ _ _ _ _ Hg).
  - now rewrite (bind_raise _ _ _ _ _ Hg).
Qed.

Lemma get_version_info_write_raise (self : UsbCan Handle) h st e w1 :
  ser_port self = Some h ->
  serial_write os h (command "V"%byte) (world st) = (Raise e, w1) ->
  get_version_info os self st =
    match serial_exception e with
    | Some msg => (Ok None, after st w1 [EvWrite (port self) (command "V"%byte);
                                         EvPrint msg])
    | None => (Raise e, after st w1 [EvWrite (port self) (command "V"%byte)])
    end.
Proof.
  intros Hh Hw. unfold get_version_info.
  pose proof (guarded_write_run _ _ _ _ _ _ Hh Hw) as Hg. cbn iota in Hg.
  destruct (serial_exception e).
  - now rewrite (bind_ok _ _ _ _ _ Hg).
  - now rewrite (bind_raise _ _ _ _ _ Hg).
Qed.

(** X2: whatever lies between the leading [V] and the closing carriage
    return is what [get_version_info] returns, for a payload of any
    length; the port sees one write and one read of 6 bytes. *)
Theorem X2_get_version_info_unframes (self : UsbCan Handle) h st w1 (p : bytes) w2 :
  ser_port self = Some h ->
  serial_write os h (command "V"%byte) (world st) = (Ok tt, w1) ->
  serial_read os h 6 w1 = (Ok ("V"%byte :: p ++ [CR])%list, w2) ->
  get_version_info os self st =
    (Ok (Some p),
     after st w2 [EvWrite (port self) (command "V"%byte); EvRead (port self) 6]).
Proof. exact (get_version_info_unframed self h st w1 p w2). Qed.

(** X3: from a reply [N], payload, carriage return, [get_serial_number]
    returns the payload without its last byte, for a payload of any
    length (nothing for a payload of one byte or none). *)
Theorem X3_get_serial_number_drops_a_byte
  (self : UsbCan Handle) h st w1 (p : bytes) w2 :
  ser_port self = Some h ->
  serial_write os h (command "N"%byte) (world st) = (Ok tt, w1) ->
  serial_read os h 12 w1 = (Ok ("N"%byte :: p ++ [CR])%list, w2) ->
  get_serial_number os self st =
    (Ok (Some (removelast p)),
     after st w2 [EvWrite (port self) (command "N"%byte); EvRead (port self) 12]) /\
  List.length (removelast p) = (List.length p - 1)%nat.
Proof.
  intros Hh Hw Hr. split.
  - exact (get_serial_number_unframed self h st w1 p w2 Hh Hw Hr).
  - destruct p as [|b p]; [reflexivity |].
    rewrite removelast_firstn_len, length_firstn. cbn [List.length]. lia.
Qed.

(** X4: the two framed queries guard the write only.  An exception of
    the read, a [SerialException] too, leaves the method with nothing
    printed; a write that fails with a [SerialException] is printed and
    gives [None] with no read made; a write that fails otherwise leaves
    the method. *)
Theorem X4_framed_queries_guard_the_write_only (self : UsbCan Handle) h st :
  ser_port self = Some h ->
  (forall w1 e w2,
      serial_write os h (command "N"%byte) (world st) = (Ok tt, w1) ->
      serial_read os h 12 w1 = (Raise e, w2) ->
      get_serial_number os self st =
        (Raise e, after st w2 [EvWrite (port self) (command "N"%byte);
                               EvRead (port self) 12])) /\
  (forall w1 e w2,
      serial_write os h (command "V"%byte) (world st) = (Ok tt, w1) ->
      serial_read os h 6 w1 = (Raise e, w2) ->
      get_version_info os self st =
        (Raise e, after st w2 [EvWrite (port self) (command "V"%byte);
                               EvRead (port self) 6])) /\
  (forall e w1,
      serial_write os h (command "N"%byte) (world st) = (Raise e, w1) ->
      get_serial_number os self st =
        match serial_exception e with
        | Some msg => (Ok None, after st w1 [EvWrite (port self) (command "N"%byte);
                                             EvPrint msg])
        | None => (Raise e, after st w1 [EvWrite (port self) (command "N"%byte)])
        end) /\
  (forall e w1,
      serial_write os h (command "V"%byte) (world st) = (Raise e, w1) ->
      get_version_info os self st =
        match serial_exception e with
        | Some msg => (Ok None, after st w1 [EvWrite (port self) (command "V"%byte);
                                             EvPrint msg])
        | None => (Raise e, after st w1 [EvWrite (port self) (command "V"%byte)])
        end).
Proof.
  intros Hh. repeat split.
  - intros w1 e w2. exact (get_serial_number_read_raise self h st w1 e w2 Hh).
  - intros w1 e w2. exact (get_version_info_read_raise self h st w1 e w2 Hh).
  - intros e w1. exact (get_serial_number_write_raise self h st e w1 Hh).
  - intros e w1. exact (get_version_info_write_raise self h st e w1 Hh).
Qed.

Lemma framed_shape (b : byte) (t : bytes) first :
  code b = first -> first <> 13 -> code (last (b :: t) b) = 13 ->
  exists p, t = (p ++ [CR])%list.
Proof.
  intros Hb Hne Hl. destruct (exists_last (l := t)) as (p & y & ->).
  - intros ->. cbn in Hl. congruence.
  - rewrite last_framed in Hl. apply code_is_CR in Hl. subst y. now exists p.
Qed.

(** X5: a value is returned for a framed reply only.  When
    [get_serial_number] returns bytes, the write succeeded and the read
    gave [N], some payload and a carriage return, and the bytes are that
    payload without its last byte; when [get_version_info] returns bytes,
    the read gave [V], exactly those bytes and a carriage return. *)
Theorem X5_value_only_from_framed_reply (self : UsbCan Handle) h st :
  ser_port self = Some h ->
  (forall v,
      fst (get_serial_number os self st) = Ok (Some v) ->
      exists w1 p w2,
        serial_write os h (command "N"%byte) (world st) = (Ok tt, w1) /\
        serial_read os h 12 w1 = (Ok ("N"%byte :: p ++ [CR])%list, w2) /\
        v = removelast p) /\
  (forall v,
      fst (get_version_info os self st) = Ok (Some v) ->
      exists w1 w2,
        serial_write os h (command "V"%byte) (world st) = (Ok tt, w1) /\
        serial_read os h 6 w1 = (Ok ("V"%byte :: v ++ [CR])%list, w2)).
Proof.
  intros Hh. split.
  - intros v Hv.
    destruct (serial_write os h (command "N"%byte) (world st)) as [[[]|e] w1] eqn:Hw.
    + destruct (serial_read os h 12 w1) as [[[|b t]|e] w2] eqn:Hr.
      * rewrite (get_serial_number_empty os _ _ _ _ _ Hh Hw Hr) in Hv. discriminate Hv.
      * destruct (Z.eq_dec (code b) 78) as [Hb|Hb].
        -- destruct (Z.eq_dec (code (last (b :: t) b)) 13) as [Hl|Hl].
           ++ destruct (framed_shape b t 78 Hb ltac:(discriminate) Hl) as [p ->].
              apply code_is_N in Hb. subst b.
              rewrite (get_serial_number_unframed _ _ _ _ _ _ Hh Hw Hr) in Hv.
              injection Hv as <-. now exists w1, p, w2.
           ++ rewrite (get_serial_number_wrong_last os _ _ _ _ _ _ _ Hh Hw Hr Hb Hl) in Hv.
              discriminate Hv.
        -- rewrite (get_serial_number_wrong_first os _ _ _ _ _ _ _ Hh Hw Hr Hb) in Hv.
           discriminate Hv.
      * rewrite (get_serial_number_read_raise _ _ _ _ _ _ Hh Hw Hr) in Hv.
        discriminate Hv.
    + rewrite (get_serial_number_write_raise _ _ _ _ _ Hh Hw) in Hv.
      destruct (serial_exception e); discriminate Hv.
  - intros v Hv.
    destruct (serial_write os h (command "V"%byte) (world st)) as [[[]|e] w1] eqn:Hw.
    + destruct (serial_read os h 6 w1) as [[[|b t]|e] w2] eqn:Hr.
      * rewrite (get_version_info_empty os _ _ _ _ _ Hh Hw Hr) in Hv. discriminate Hv.
      * destruct (Z.eq_dec (code b) 86) as [Hb|Hb].
        -- destruct (Z.eq_dec (code (last (b :: t) b)) 13) as [Hl|Hl].
           ++ destruct (framed_shape b t 86 Hb ltac:(discriminate) Hl) as [p ->].
              apply code_is_V in Hb. subst b.
              rewrite (get_version_info_unframed _ _ _ _ _ _ Hh Hw Hr) in Hv.
              injection Hv as <-. now exists w1, w2.
           ++ rewrite (get_version_info_wrong_last os _ _ _ _ _ _ _ Hh Hw Hr Hb Hl) in Hv.
              discriminate Hv.
        -- rewrite (get_version_info_wrong_first os _ _ _ _ _ _ _ Hh Hw Hr Hb) in Hv.
           discriminate Hv.
      * rewrite (get_version_info_read_raise _ _ _ _ _ _ Hh Hw Hr) in Hv.
        discriminate Hv.
    + rewrite (get_version_info_write_raise _ _ _ _ _ Hh Hw) in Hv.
      destruct (serial_exception e); discriminate Hv.
Qed.

(** ** Version decoding *)

(** X7: for a payload of at most four bytes, decoding succeeds exactly
    when the payload is four hexadecimal digits: a shorter payload, the
    empty one too, raises an exception like a bad digit does. *)
Theorem X7_decode_version_needs_four_digits (p : bytes) :
  (List.length p <= 4)%nat ->
  is_Ok (decode_version (Some p)) = well_formed_payload p.
Proof.
  intros Hlen.
  destruct p as [|b0 [|b1 [|b2 [|b3 [|b4 p]]]]].
  - reflexivity.
  - reflexivity.
  - reflexivity.
  - unfold well_formed_payload. cbn [List.length Nat.eqb andb].
    unfold decode_version, subscript. cbn [rbind].
    change (py_slice [b0; b1; b2] (Some 2) (Some 3)) with [b2].
    rewrite py_int16_digit.
    destruct (hex_digit_value b2); reflexivity.
  - destruct (well_formed_payload [b0; b1; b2; b3]) eqn:Hwf.
    + now rewrite (decode_version_well_formed _ _ _ _ Hwf).
    + unfold well_formed_payload in Hwf. cbn [List.length Nat.eqb andb] in Hwf.
      now rewrite (decode_version_bad_digit [b0; b1; b2; b3] eq_refl Hwf).
  - cbn [List.length] in Hlen. lia.
Qed.

(** ** The loop body and main *)

(** X6: a framed reply with no payload to keep counts as a failure.  For
    the reply [N\r], or [N], one byte and [\r], [get_serial_number]
    returns the empty bytes, which the tester takes for no serial number:
    it prints that it failed to get the serial number, with no complaint
    about a framing byte, and leaves through [sys.exit(1)].  The reply
    [V\r] ends the version query in the same way. *)
Theorem X6_empty_payload_counts_as_failure item rest st st1 h w0 st3 :
  linux_probes os (UsbCan_init item) st = (Ok tt, st1) ->
  serial_for_url os item (world st1) = (Ok h, w0) ->
  close_can_channel os {| port := item; ser_port := Some h |}
    (after st1 w0 [EvOpen item]) = (Ok true, st3) ->
  (forall w1 (p : bytes) w2,
      serial_write os h (command "N"%byte) (world st3) = (Ok tt, w1) ->
      serial_read os h 12 w1 = (Ok ("N"%byte :: p ++ [CR])%list, w2) ->
      (List.length p <= 1)%nat ->
      fst (get_serial_number os {| port := item; ser_port := Some h |} st3)
        = Ok (Some []) /\
      for_each (item :: rest) (check_device os) st =
        (Raise (SystemExit 1),
         after st3 w2 [EvWrite item (command "N"%byte); EvRead item 12;
                       EvPrint "Failed to get the serial number"])) /\
  (forall ser_num st4 w1 w2,
      get_serial_number os {| port := item; ser_port := Some h |} st3
        = (Ok ser_num, st4) ->
      truthy ser_num = true ->
      serial_write os h (command "V"%byte) (world st4) = (Ok tt, w1) ->
      serial_read os h 6 w1 = (Ok ["V"%byte; CR], w2) ->
      for_each (item :: rest) (check_device os) st =
        (Raise (SystemExit 1),
         after st4 w2 [EvWrite item (command "V"%byte); EvRead item 6;
                       EvPrint "Failed to get the firmware version"])).
Proof.
  intros Hp Ho Hc.
  pose proof (init_serial_port_ok os _ _ _ _ Ho) as Hi.
  set (u := {| port := item; ser_port := Some h |}) in *.
  split.
  - intros w1 p w2 Hw Hr Hlen.
    pose proof (get_serial_number_unframed u h st3 w1 p w2 eq_refl Hw Hr) as Hs.
    assert (Hnil : removelast p = []).
    { destruct p as [|b [|c p]]; [reflexivity | reflexivity |].
      cbn [List.length] in Hlen. lia. }
    rewrite Hnil in Hs. split; [now rewrite Hs |].
    rewrite (for_each_raise _ _ _ _ _ _
               (check_device_failed os _ _ _ _
                  (failed_serial_number os item st st1 u _ st3 _ _ Hp Hi Hc Hs eq_refl))).
    rewrite after_after. reflexivity.
  - intros ser_num st4 w1 w2 Hs Ht Hw Hr.
    pose proof (get_version_info_unframed u h st4 w1 [] w2 eq_refl Hw Hr) as Hv.
    rewrite (for_each_raise _ _ _ _ _ _
               (check_device_failed os _ _ _ _
                  (failed_version os item st st1 u _ st3 _ _ _ _
                     Hp Hi Hc Hs Ht Hv eq_refl))).
    rewrite after_after. reflexivity.
Qed.

Lemma check_device_success
  item st st1 h w0 w1 c w2 w3 (p : bytes) w4 sn w5 b0 b1 b2 b3 w6 w7 :
  linux_probes os (UsbCan_init item) st = (Ok tt, st1) ->
  serial_for_url os item (world st1) = (Ok h, w0) ->
  serial_write os h (command "C"%byte) w0 = (Ok tt, w1) ->
  serial_read os h 1 w1 = (Ok [c], w2) ->
  c = CR \/ c = BEL ->
  serial_write os h (command "N"%byte) w2 = (Ok tt, w3) ->
  serial_read os h 12 w3 = (Ok ("N"%byte :: p ++ [CR])%list, w4) ->
  (2 <= List.length p)%nat ->
  decode_ascii (removelast p) = Ok sn ->
  serial_write os h (command "V"%byte) w4 = (Ok tt, w5) ->
  serial_read os h 6 w5 = (Ok ["V"%byte; b0; b1; b2; b3; CR], w6) ->
  well_formed_payload [b0; b1; b2; b3] = true ->
  serial_close os h w6 = (Ok tt, w7) ->
  check_device os item st =
    (Ok tt,
     after st1 w7
       [EvOpen item;
        EvWrite item (command "C"%byte); EvRead item 1;
        EvWrite item (command "N"%byte); EvRead item 12;
        EvWrite item (command "V"%byte); EvRead item 6;
        EvPrint "Found VSCAN device with the following info:";
        EvPrint (summary item sn
                   {| ver_major := digit b2; ver_minor := digit b3;
                      hw_major := digit b0; hw_minor := digit b1 |});
        EvClose item]).
Proof.
  intros Hp Ho Hcw Hcr Hc Hnw Hnr Hlen Hsn Hvw Hvr Hwf Hcl.
  pose proof (init_serial_port_ok os _ _ _ _ Ho) as Hi.
  set (u := {| port := item; ser_port := Some h |}) in *.
  pose proof (close_can_channel_reply os u h (after st1 w0 [EvOpen item])
                w1 [c] w2 eq_refl Hcw Hcr) as Hclose.
  rewrite (proj2 (close_verdict c) Hc), after_after in Hclose.
  cbn [app port u] in Hclose.
  set (ev3 := [EvOpen item; EvWrite item (command "C"%byte); EvRead item 1]) in *.
  pose proof (get_serial_number_unframed u h (after st1 w2 ev3) w3 p w4
                eq_refl Hnw Hnr) as Hs.
  rewrite after_after in Hs. cbn [port u] in Hs.
  set (ev4 := (ev3 ++ _)%list) in Hs.
  pose proof (get_version_info_unframed u h (after st1 w4 ev4) w5 [b0; b1; b2; b3] w6
                eq_refl Hvw Hvr) as Hv.
  rewrite after_after in Hv. cbn [port u] in Hv.
  assert (Ht : truthy (Some (removelast p)) = true).
  { destruct p as [|x [|y p]]; cbn [List.length] in Hlen; try lia.
    cbn [removelast]. destruct p; reflexivity. }
  rewrite (check_device_checked os _ _ _ _ _ _ _ _ _ _ Hp Hi Hclose Hs Ht Hv eq_refl).
  unfold bind at 1, lift at 1. rewrite (decode_version_well_formed _ _ _ _ Hwf).
  unfold bind at 1. rewrite print_run, after_after.
  unfold bind at 1, lift at 1. cbn [decode_opt]. rewrite Hsn.
  unfold bind at 1. rewrite print_run, after_after.
  unfold close, on_ser_port, os_call. cbn [ser_port u port world after].
  rewrite Hcl. cbn [fst snd trace app]. unfold after. cbn [trace world].
  rewrite <- app_assoc. reflexivity.
Qed.

(** X8: a device that answers as the protocol table says passes the
    check.  When the port opens, the close command is answered by a
    carriage return or a bell, the serial-number reply is [N], an ASCII
    payload of two bytes or more and a carriage return, the version reply
    is [V], four hexadecimal digits and a carriage return, and the port
    closes, the loop body prints two lines, the second showing the port,
    the payload without its last byte, the firmware numbers of digits 2
    and 3 and the hardware numbers of digits 0 and 1, each from 0 to 15;
    it closes the port last, and the loop goes on with the remaining
    ports. *)
Theorem X8_healthy_device_passes
  item rest st st1 h w0 w1 c w2 w3 (p : bytes) w4 sn w5 b0 b1 b2 b3 w6 w7 :
  linux_probes os (UsbCan_init item) st = (Ok tt, st1) ->
  serial_for_url os item (world st1) = (Ok h, w0) ->
  serial_write os h (command "C"%byte) w0 = (Ok tt, w1) ->
  serial_read os h 1 w1 = (Ok [c], w2) ->
  c = CR \/ c = BEL ->
  serial_write os h (command "N"%byte) w2 = (Ok tt, w3) ->
  serial_read os h 12 w3 = (Ok ("N"%byte :: p ++ [CR])%list, w4) ->
  (2 <= List.length p)%nat ->
  decode_ascii (removelast p) = Ok sn ->
  serial_write os h (command "V"%byte) w4 = (Ok tt, w5) ->
  serial_read os h 6 w5 = (Ok ["V"%byte; b0; b1; b2; b3; CR], w6) ->
  well_formed_payload [b0; b1; b2; b3] = true ->
  serial_close os h w6 = (Ok tt, w7) ->
  let v := {| ver_major := digit b2; ver_minor := digit b3;
              hw_major := digit b0; hw_minor := digit b1 |} in
  let done :=
    after st1 w7
      [EvOpen item;
       EvWrite item (command "C"%byte); EvRead item 1;
       EvWrite item (command "N"%byte); EvRead item 12;
       EvWrite item (command "V"%byte); EvRead item 6;
       EvPrint "Found VSCAN device with the following info:";
       EvPrint (summary item sn v);
       EvClose item] in
  check_device os item st = (Ok tt, done) /\
  for_each (item :: rest) (check_device os) st =
    for_each rest (check_device os) done /\
  (0 <= digit b0 <= 15 /\ 0 <= digit b1 <= 15 /\
   0 <= digit b2 <= 15 /\ 0 <= digit b3 <= 15).
Proof.
  intros Hp Ho Hcw Hcr Hc Hnw Hnr Hlen Hsn Hvw Hvr Hwf Hcl v done.
  pose proof (check_device_success _ _ _ _ _ _ _ _ _ _ _ _ _ _ _ _ _ _ _
                Hp Ho Hcw Hcr Hc Hnw Hnr Hlen Hsn Hvw Hvr Hwf Hcl) as Hrun.
  split; [exact Hrun |]. split.
  - cbn [for_each]. now rewrite (bind_ok _ _ _ _ _ Hrun).
  - assert (Hd : forall b, 0 <= digit b <= 15)
      by (intros b; destruct b; vm_compute; split; discriminate).
    repeat split; apply Hd.
Qed.

(** X9: which ports [main] checks.  With an argument other than [all]
    nothing is enumerated and the loop runs over that one port; with
    [all], the ports are the devices [list_ports.grep("0403:6015")]
    lists, in its order, and when there is one at least nothing is
    printed before the first is checked. *)
Theorem X9_main_targets :
  (forall arg st,
      String.eqb arg "all" = false ->
      main os arg st = for_each [arg] (check_device os) st) /\
  (forall st first others w,
      list_ports_grep os "0403:6015" (world st) = (Ok (first :: others), w) ->
      main os "all" st =
        for_each (map device (first :: others)) (check_device os)
          (after st w [EvGrep "0403:6015"])).
Proof.
  split.
  - intros arg st H. unfold main. rewrite H. reflexivity.
  - intros st first others w H. unfold main. cbn [String.eqb Ascii.eqb Bool.eqb].
    unfold bind at 1. unfold find_all_usb_can_devices, bind at 1, bind at 1, os_call.
    rewrite H. reflexivity.
Qed.

(** X10: when no device is enumerated, [main] opens no port and ends
    normally, with status 0.  It prints that no device was found; on
    Linux it then runs the driver check and prints that the driver is not
    available exactly when the check returns [False]; an exception of the
    driver check ends [main]. *)
Theorem X10_no_device_found st w :
  list_ports_grep os "0403:6015" (world st) = (Ok [], w) ->
  let st1 := after st w [EvGrep "0403:6015"; EvPrint "No USB-CAN devices found"] in
  (is_linux os = false -> main os "all" st = (Ok tt, st1)) /\
  (is_linux os = true ->
   (forall st2,
       find_ftdi_driver os st1 = (Ok true, st2) ->
       main os "all" st = (Ok tt, st2)) /\
   (forall st2,
       find_ftdi_driver os st1 = (Ok false, st2) ->
       main os "all" st =
         (Ok tt, after st2 (world st2) [EvPrint "FTDI driver is not available"])) /\
   (forall e st2,
       find_ftdi_driver os st1 = (Raise e, st2) ->
       main os "all" st = (Raise e, st2))).
Proof.
  intros H st1.
  assert (Hstart : forall k : list string -> M World unit,
             bind (bind (find_all_usb_can_devices os) (fun found =>
                     match found with
                     | [] =>
                         bind (print "No USB-CAN devices found") (fun _ =>
                         bind (if is_linux os
                               then bind (find_ftdi_driver os) (fun driver =>
                                      if negb driver
                                      then print "FTDI driver is not available"
                                      else ret tt)
                               else ret tt) (fun _ => ret found))
                     | _ :: _ => ret found
                     end)) k st
             = bind (bind (if is_linux os
                           then bind (find_ftdi_driver os) (fun driver =>
                                  if negb driver
                                  then print "FTDI driver is not available"
                                  else ret tt)
                           else ret tt) (fun _ => ret [])) k st1).
  { intros k. unfold bind at 1. unfold bind at 1.
    unfold find_all_usb_can_devices, bind at 1, os_call. rewrite H.
    cbn [fst snd map ret]. unfold bind at 1. rewrite print_run.
    unfold st1, after. cbn [world trace]. rewrite <- app_assoc. reflexivity. }
  split.
  - intros Hl. unfold main. cbn [String.eqb Ascii.eqb Bool.eqb].
    rewrite Hstart, Hl. reflexivity.
  - intros Hl. repeat split.
    + intros st2 Hf. unfold main. cbn [String.eqb Ascii.eqb Bool.eqb].
      rewrite Hstart, Hl. unfold bind at 1. unfold bind at 1.
      rewrite (bind_ok _ _ _ _ _ Hf). reflexivity.
    + intros st2 Hf. unfold main. cbn [String.eqb Ascii.eqb Bool.eqb].
      rewrite Hstart, Hl. unfold bind at 1. unfold bind at 1.
      rewrite (bind_ok _ _ _ _ _ Hf). reflexivity.
    + intros e st2 Hf. unfold main. cbn [String.eqb Ascii.eqb Bool.eqb].
      rewrite Hstart, Hl. unfold bind at 1. unfold bind at 1.
      rewrite (bind_raise _ _ _ _ _ Hf). reflexivity.
Qed.

(** ** The probes made on Linux *)

Lemma find_ftdi_driver_loaded st r1 w1 :
  popen_stdout os ["lsmod"] (world st) = (r1, w1) ->
  scan_lsmod r1 = Ok true ->
  find_ftdi_driver os st =
    (Ok true, after st w1 [EvSpawn ["lsmod"]; EvPrint "ftdi_sio is loaded"]).
Proof.
  intros H1 Hl. unfold find_ftdi_driver.
  pose proof (check_lsmod_run os st r1 w1 H1) as Hc. rewrite Hl in Hc.
  rewrite (bind_ok _ _ _ _ _ Hc).
  unfold bind. rewrite print_run, after_after. reflexivity.
Qed.

Lemma find_ftdi_driver_not_loaded st r1 w1 output w2 kv :
  popen_stdout os ["lsmod"] (world st) = (r1, w1) ->
  scan_lsmod r1 = Ok false ->
  popen_stdout os ["uname"; "-r"] w1 = (Ok output, w2) ->
  kernel_version (Ok output) = Ok kv ->
  find_ftdi_driver os st =
    bind (os_call (EvIsFile (module_file kv))
            (fun w => (Ok (isfile os (module_file kv) w), w))) (fun present =>
    if present then
      bind (print "ftdi_sio could be found in /lib/modules") (fun _ => ret true)
    else
      bind (os_call (EvOpenFile (builtin_manifest kv))
              (open_lines os (builtin_manifest kv))) (fun mods =>
      if existsb (contains "ftdi_sio.ko") mods
      then bind (print "ftdi_sio is builtin") (fun _ => ret true)
      else ret false))
    (after st w2 [EvSpawn ["lsmod"]; EvSpawn ["uname"; "-r"]]).
Proof.
  intros H1 Hl H2 Hk. unfold find_ftdi_driver.
  pose proof (check_lsmod_run os st r1 w1 H1) as Hc. rewrite Hl in Hc.
  rewrite (bind_ok _ _ _ _ _ Hc).
  unfold bind at 1, os_call at 1. cbn [world after]. rewrite H2. cbn [fst snd].
  unfold kernel_version in Hk. cbn [rbind] in Hk.
  unfold bind at 1, lift at 1.
  destruct (decode_ascii output) as [text|e]; [| discriminate Hk].
  cbn [rbind] in Hk. unfold bind at 1, lift at 1. rewrite Hk.
  unfold after. cbn [trace world]. rewrite <- app_assoc. reflexivity.
Qed.

(** X11: what [find_ftdi_driver] does on its way.  When [lsmod] lists
    the driver it prints one line and does nothing more: [uname] is not
    run and no file is looked at.  When the module file exists the
    builtin manifest is not opened.  It prints one line when it returns
    [True], and nothing when it returns [False]. *)
Theorem X11_driver_check_steps st r1 w1 :
  popen_stdout os ["lsmod"] (world st) = (r1, w1) ->
  (scan_lsmod r1 = Ok true ->
   find_ftdi_driver os st =
     (Ok true, after st w1 [EvSpawn ["lsmod"]; EvPrint "ftdi_sio is loaded"])) /\
  (scan_lsmod r1 = Ok false ->
   forall output w2 kv,
     popen_stdout os ["uname"; "-r"] w1 = (Ok output, w2) ->
     kernel_version (Ok output) = Ok kv ->
     (isfile os (module_file kv) w2 = true ->
      find_ftdi_driver os st =
        (Ok true,
         after st w2 [EvSpawn ["lsmod"]; EvSpawn ["uname"; "-r"];
                      EvIsFile (module_file kv);
                      EvPrint "ftdi_sio could be found in /lib/modules"])) /\
     (isfile os (module_file kv) w2 = false ->
      forall mods w3,
        open_lines os (builtin_manifest kv) w2 = (Ok mods, w3) ->
        find_ftdi_driver os st =
          (Ok (existsb (contains "ftdi_sio.ko") mods),
           after st w3
             ([EvSpawn ["lsmod"]; EvSpawn ["uname"; "-r"];
               EvIsFile (module_file kv); EvOpenFile (builtin_manifest kv)] ++
              if existsb (contains "ftdi_sio.ko") mods
              then [EvPrint "ftdi_sio is builtin"] else [])%list))).
Proof.
  intros H1. split; [now apply find_ftdi_driver_loaded |].
  intros Hl output w2 kv H2 Hk.
  rewrite (find_ftdi_driver_not_loaded st r1 w1 output w2 kv H1 Hl H2 Hk).
  split.
  - intros Hf. unfold bind at 1, os_call at 1. cbn [fst snd world after]. rewrite Hf.
    unfold bind. rewrite print_run. unfold after, ret. cbn [trace world].
    rewrite <- !app_assoc. reflexivity.
  - intros Hf mods w3 H3. unfold bind at 1, os_call at 1.
    cbn [fst snd world after]. rewrite Hf.
    unfold bind at 1, os_call at 1. cbn [fst snd world]. rewrite H3. cbn [fst snd].
    destruct (existsb (contains "ftdi_sio.ko") mods).
    + unfold bind. rewrite print_run. unfold after, ret. cbn [trace world].
      rewrite <- !app_assoc. reflexivity.
    + unfold after, ret. cbn [trace world]. rewrite <- !app_assoc. reflexivity.
Qed.

(** X12: [check_lsmod] is a search in the whole output: it returns
    [True] exactly when [ftdi_sio] occurs somewhere in what [lsmod]
    prints, whatever the line, as the name of a module or not.  Output
    that is not ASCII raises [UnicodeDecodeError]. *)
Theorem X12_check_lsmod_searches_whole_output st output w :
  popen_stdout os ["lsmod"] (world st) = (Ok output, w) ->
  (forall text,
      decode_ascii output = Ok text ->
      check_lsmod os st =
        (Ok (contains "ftdi_sio" text), after st w [EvSpawn ["lsmod"]])) /\
  (forallb (fun x => code x <? 128) output = false ->
   check_lsmod os st = (Raise UnicodeDecodeError, after st w [EvSpawn ["lsmod"]])).
Proof.
  intros H. rewrite (check_lsmod_run os st _ _ H). unfold scan_lsmod. cbn [rbind].
  split.
  - intros text ->. cbn [rbind]. now rewrite contains_lines.
  - intros Hbad. unfold decode_ascii. now rewrite Hbad.
Qed.



Lemma for_each_find_port p ports (st : State World) :
  for_each ports (fun item =>
    if String.eqb (device item) p then
      bind (print ("Serial port found: " ++ str_of_item item)) (fun _ =>
      if contains "USB-CAN Plus" (description item)
      then print "This device has a correct description"
      else print ("Device description is wrong: " ++ description item))
    else ret tt) st =
  (Ok tt,
   after st (world st)
     (map EvPrint
        (flat_map (fun item => if String.eqb (device item) p
                               then find_port_lines item else []) ports))).
Proof.
  revert st. induction ports as [|item ports IH]; intros st.
  - destruct st. unfold after. cbn. now rewrite app_nil_r.
  - cbn [for_each flat_map]. unfold bind at 1.
    destruct (String.eqb (device item) p).
    + unfold bind at 1. rewrite print_run. unfold find_port_lines.
      destruct (contains "USB-CAN Plus" (description item));
        rewrite print_run, IH, !after_after; reflexivity.
    + cbn [ret app]. apply IH.
Qed.

(** X14: [find_port] reports the entries of the port only.  Of the
    entries [list_ports.grep(port)] lists, those whose device is not
    exactly the port print nothing; each entry of the port prints two
    lines, the second telling whether [USB-CAN Plus] occurs in its
    description.  The result is [None] in every case. *)
Theorem X14_find_port_reports_exact_matches p st ports w :
  list_ports_grep os p (world st) = (Ok ports, w) ->
  find_port os p st =
    (Ok tt,
     after st w
       (EvGrep p ::
        map EvPrint
          (flat_map (fun item => if String.eqb (device item) p
                                 then find_port_lines item else []) ports))) /\
  (forallb (fun item => negb (String.eqb (device item) p)) ports = true ->
   find_port os p st = (Ok tt, after st w [EvGrep p])).
Proof.
  intros H.
  assert (Hrun : find_port os p st =
    (Ok tt,
     after st w
       (EvGrep p ::
        map EvPrint
          (flat_map (fun item => if String.eqb (device item) p
                                 then find_port_lines item else []) ports)))).
  { unfold find_port, bind at 1, os_call. rewrite H. cbn [fst snd].
    rewrite for_each_find_port. unfold after. cbn [trace world].
    rewrite <- app_assoc. reflexivity. }
  split; [exact Hrun |].
  intros Hnone. rewrite Hrun.
  assert (Hnil : flat_map (fun item => if String.eqb (device item) p
                                       then find_port_lines item else []) ports = []).
  { clear H Hrun. induction ports as [|item ports IH]; [reflexivity |].
    cbn [forallb flat_map] in *. apply andb_true_iff in Hnone.
    destruct Hnone as [Hi Hrest]. apply negb_true_iff in Hi. rewrite Hi.
    now apply IH. }
  now rewrite Hnil.
Qed.

(** ** What the tester does to a port *)

Lemma emits_ret {A} P (Q : A -> Prop) a : Q a -> emits (World := World) P Q (ret a).
Proof.
  intros Ha st. exists []. split; [cbn; now rewrite app_nil_r |].
  split; [reflexivity |]. cbn. intros a' [= <-]. exact Ha.
Qed.

Lemma emits_raise {A} P (Q : A -> Prop) e : emits (World := World) P Q (raise e).
Proof.
  intros st. exists []. split; [cbn; now rewrite app_nil_r |].
  split; [reflexivity |]. cbn. discriminate.
Qed.

Lemma emits_lift {A} P (r : Res A) : emits (World := World) P any (lift r).
Proof.
  intros st. exists []. split; [cbn; now rewrite app_nil_r |].
  split; [reflexivity |]. intros; exact I.
Qed.

Lemma emits_print P text :
  P (EvPrint text) = true -> emits (World := World) P any (print text).
Proof.
  intros H st. exists [EvPrint text]. split; [reflexivity |].
  split; [cbn; now rewrite H |]. intros; exact I.
Qed.

Lemma emits_os_call {A} P ev (op : World -> Res A * World) :
  P ev = true -> emits P any (os_call ev op).
Proof.
  intros H st. exists [ev]. split; [reflexivity |].
  split; [cbn; now rewrite H |]. intros; exact I.
Qed.

Lemma emits_bind {A B} P (Q : A -> Prop) (R : B -> Prop)
  (m : M World A) (k : A -> M World B) :
  emits P Q m -> (forall a, Q a -> emits P R (k a)) -> emits P R (bind m k).
Proof.
  intros Hm Hk st. unfold bind. destruct (Hm st) as (l1 & H1 & P1 & Q1).
  destruct (m st) as [[a|e] st1]; cbn [fst snd] in *.
  - destruct (Hk a (Q1 a eq_refl) st1) as (l2 & H2 & P2 & Q2).
    exists (l1 ++ l2)%list. rewrite H2, H1, app_assoc, forallb_app, P1, P2.
    split; [reflexivity |]. split; [reflexivity | exact Q2].
  - exists l1. split; [assumption |]. split; [assumption | discriminate].
Qed.

Lemma emits_try_except {A} P (Q : A -> Prop) (m : M World A) sel h :
  emits P Q m -> (forall err, emits P Q (h err)) -> emits P Q (try_except m sel h).
Proof.
  intros Hm Hh st. unfold try_except. destruct (Hm st) as (l1 & H1 & P1 & Q1).
  destruct (m st) as [[a|e] st1]; cbn [fst snd] in *.
  - exists l1. split; [assumption |]. split; assumption.
  - destruct (sel e) as [err|].
    + destruct (Hh err st1) as (l2 & H2 & P2 & Q2).
      exists (l1 ++ l2)%list. rewrite H2, H1, app_assoc, forallb_app, P1, P2.
      split; [reflexivity |]. split; [reflexivity | exact Q2].
    + exists l1. split; [assumption |]. split; [assumption | discriminate].
Qed.

Lemma emits_any {A} P (Q : A -> Prop) (m : M World A) : emits P Q m -> emits P any m.
Proof.
  intros Hm st. destruct (Hm st) as (l & H & HP & _). exists l.
  split; [assumption |]. split; [assumption | intros; exact I].
Qed.

Lemma emits_for_each {A} P (l : list A) (body : A -> M World unit) :
  (forall x, emits P any (body x)) -> emits P any (for_each l body).
Proof.
  intros Hb. induction l as [|x l IH]; cbn [for_each].
  - now apply emits_ret.
  - apply (emits_bind P any any); [apply Hb | intros _ _; exact IH].
Qed.

Lemma emits_on_ser_port {A} P (self : UsbCan Handle) (f : Handle -> M World A) :
  (forall h, emits P any (f h)) -> emits P any (on_ser_port self f).
Proof.
  intros H. unfold on_ser_port. destruct (ser_port self); [apply H | apply emits_raise].
Qed.

(** The steps of a footprint proof: every event met must satisfy the
    predicate, which the hypotheses in the context say. *)
Ltac emits_step :=
  first
    [ apply emits_ret; exact I
    | apply emits_raise
    | apply emits_lift
    | apply emits_print; solve [auto]
    | apply emits_os_call; solve [auto]
    | apply emits_on_ser_port; intros ?
    | apply (emits_bind _ any any); [| intros ? _]
    | apply emits_try_except; [| intros ?]
    | apply emits_for_each; intros ?
    | match goal with
      | |- emits _ _ (if ?c then _ else _) => destruct c
      | |- emits _ _ (match ?c with _ => _ end) => destruct c
      end ].

Section Footprint.

Variable P : event -> bool.
Hypothesis P_print : forall text, P (EvPrint text) = true.

Lemma emits_close_can_channel (u : UsbCan Handle) :
  P (EvWrite (port u) (command "C"%byte)) = true ->
  P (EvRead (port u) 1) = true ->
  emits P any (close_can_channel os u).
Proof.
  intros Hw Hr. unfold close_can_channel, ser_port_write, ser_port_read.
  repeat emits_step.
Qed.

Lemma emits_get_serial_number (u : UsbCan Handle) :
  P (EvWrite (port u) (command "N"%byte)) = true ->
  P (EvRead (port u) 12) = true ->
  emits P any (get_serial_number os u).
Proof.
  intros Hw Hr. unfold get_serial_number, ser_port_write, ser_port_read.
  repeat emits_step.
Qed.

Lemma emits_get_version_info (u : UsbCan Handle) :
  P (EvWrite (port u) (command "V"%byte)) = true ->
  P (EvRead (port u) 6) = true ->
  emits P any (get_version_info os u).
Proof.
  intros Hw Hr. unfold get_version_info, ser_port_write, ser_port_read.
  repeat emits_step.
Qed.

Lemma emits_init_serial_port (u : UsbCan Handle) :
  P (EvOpen (port u)) = true ->
  emits P (fun opened => port (snd opened) = port u) (init_serial_port os u).
Proof.
  intros Ho. unfold init_serial_port.
  apply emits_try_except.
  - apply (emits_bind _ any); [now apply emits_os_call |].
    intros h _. now apply emits_ret.
  - intros err. apply (emits_bind _ any); [apply emits_print, P_print |].
    intros _ _. now apply emits_ret.
Qed.

Lemma emits_linux_probes (u : UsbCan Handle) :
  (forall pat, P (EvGrep pat) = true) ->
  (forall argv, P (EvSpawn argv) = true) ->
  emits P any (linux_probes os u).
Proof.
  intros Hg Hs. unfold linux_probes, find_port, lsof.
  repeat emits_step.
Qed.

End Footprint.

Lemma emits_run {A} P (Q : A -> Prop) (m : M World A) st r st' :
  emits P Q m -> m st = (r, st') ->
  exists evs, trace st' = (trace st ++ evs)%list /\ forallb P evs = true.
Proof.
  intros Hm Hrun. destruct (Hm st) as (evs & H & HP & _).
  rewrite Hrun in H. now exists evs.
Qed.

Lemma harmless_write item (c : byte) :
  c = "C"%byte \/ c = "N"%byte \/ c = "V"%byte ->
  harmless item (EvWrite item (command c)) = true.
Proof.
  intros [-> | [-> | ->]]; unfold harmless; rewrite String.eqb_refl; reflexivity.
Qed.

Lemma emits_check_device item :
  emits (harmless item) any (check_device os item).
Proof.
  assert (Hprint : forall text, harmless item (EvPrint text) = true) by reflexivity.
  unfold check_device.
  apply (emits_bind _ any any).
  { apply emits_linux_probes; reflexivity. }
  intros _ _.
  apply (emits_bind _ (fun opened => port (snd opened) = item) any).
  { apply (emits_init_serial_port (harmless item) Hprint (UsbCan_init item)).
    cbn. now rewrite String.eqb_refl. }
  intros opened Hport.
  destruct (negb (fst opened)); [unfold sys_exit; repeat emits_step |].
  apply (emits_bind _ any any).
  { apply (emits_close_can_channel _ Hprint); rewrite Hport.
    - apply harmless_write. auto.
    - cbn. now rewrite String.eqb_refl. }
  intros closed _.
  destruct (negb closed); [unfold sys_exit; repeat emits_step |].
  apply (emits_bind _ any any).
  { apply (emits_get_serial_number _ Hprint); rewrite Hport.
    - apply harmless_write. auto.
    - cbn. now rewrite String.eqb_refl. }
  intros ser_num _.
  destruct (negb (truthy ser_num)); [unfold sys_exit; repeat emits_step |].
  apply (emits_bind _ any any).
  { apply (emits_get_version_info _ Hprint); rewrite Hport.
    - apply harmless_write. auto.
    - cbn. now rewrite String.eqb_refl. }
  intros ver _.
  destruct (negb (truthy ver)); [unfold sys_exit; repeat emits_step |].
  assert (Hclose : harmless item (EvClose (port (snd opened))) = true)
    by (rewrite Hport; cbn; now rewrite String.eqb_refl).
  unfold close. repeat emits_step.
Qed.

(** X15: the loop body keeps to its port and to its three commands.
    Whatever the system answers, every port the check of [item] opens,
    writes to, reads from or closes is [item]; what it writes is one of
    [C\r], [N\r] and [V\r]; and it asks for 1, 12 or 6 bytes. *)
Theorem X15_check_device_keeps_to_its_port item st :
  exists evs,
    trace (snd (check_device os item st)) = (trace st ++ evs)%list /\
    forallb (harmless item) evs = true.
Proof.
  destruct (emits_check_device item st) as (evs & H & HP & _). now exists evs.
Qed.

(** X16: a failed check leaves the port open.  From the start of the
    check of a port to the [sys.exit(1)] of a failed check, no port is
    closed: [usbcan.close()] is reached on the successful path only. *)
Theorem X16_failed_check_never_closes item st st' msgs :
  failed_check os item st st' msgs ->
  exists evs,
    trace (snd (check_device os item st)) = (trace st ++ evs)%list /\
    existsb is_close evs = false.
Proof.
  intros Hf. rewrite (check_device_failed os _ _ _ _ Hf). cbn [snd after trace].
  set (P := fun ev => negb (is_close ev)).
  assert (Hprint : forall text, P (EvPrint text) = true) by reflexivity.
  assert (Hnone : forall evs, forallb P evs = true -> existsb is_close evs = false).
  { induction evs as [|ev evs IH]; [reflexivity |]. cbn [forallb existsb].
    intros H. apply andb_true_iff in H. destruct H as [Hev Hevs].
    unfold P in Hev. apply negb_true_iff in Hev. now rewrite Hev, IH. }
  assert (Hmsgs : forallb P (map EvPrint msgs) = true).
  { clear. induction msgs; [reflexivity | exact IHmsgs]. }
  assert (Hprobe : forall u, emits P any (linux_probes os u))
    by (intros u; apply emits_linux_probes; reflexivity).
  assert (Hinit : forall u, emits P (fun opened => port (snd opened) = port u)
                              (init_serial_port os u))
    by (intros u; apply emits_init_serial_port; [exact Hprint | reflexivity]).
  assert (Hclose : forall u, emits P any (close_can_channel os u))
    by (intros u; apply emits_close_can_channel; [exact Hprint | reflexivity ..]).
  assert (Hsn : forall u, emits P any (get_serial_number os u))
    by (intros u; apply emits_get_serial_number; [exact Hprint | reflexivity ..]).
  assert (Hver : forall u, emits P any (get_version_info os u))
    by (intros u; apply emits_get_version_info; [exact Hprint | reflexivity ..]).
  destruct Hf as [st1 u st2 Hp Hi
                 | st1 u st2 st3 Hp Hi Hc
                 | st1 u st2 st3 sn st4 Hp Hi Hc Hs Ht
                 | st1 u st2 st3 sn st4 ver st5 Hp Hi Hc Hs Ht Hv Hfv].
  - destruct (emits_run _ _ _ _ _ _ (Hprobe _) Hp) as (e1 & E1 & P1).
    destruct (emits_run _ _ _ _ _ _ (Hinit _) Hi) as (e2 & E2 & P2).
    rewrite E2, E1. eexists. rewrite <- !app_assoc. split; [reflexivity |].
    apply Hnone. now rewrite !forallb_app, P1, P2.
  - destruct (emits_run _ _ _ _ _ _ (Hprobe _) Hp) as (e1 & E1 & P1).
    destruct (emits_run _ _ _ _ _ _ (Hinit _) Hi) as (e2 & E2 & P2).
    destruct (emits_run _ _ _ _ _ _ (Hclose _) Hc) as (e3 & E3 & P3).
    rewrite E3, E2, E1. eexists. rewrite <- !app_assoc. split; [reflexivity |].
    apply Hnone. now rewrite !forallb_app, P1, P2, P3.
  - destruct (emits_run _ _ _ _ _ _ (Hprobe _) Hp) as (e1 & E1 & P1).
    destruct (emits_run _ _ _ _ _ _ (Hinit _) Hi) as (e2 & E2 & P2).
    destruct (emits_run _ _ _ _ _ _ (Hclose _) Hc) as (e3 & E3 & P3).
    destruct (emits_run _ _ _ _ _ _ (Hsn _) Hs) as (e4 & E4 & P4).
    rewrite E4, E3, E2, E1. eexists. rewrite <- !app_assoc. split; [reflexivity |].
    apply Hnone. now rewrite !forallb_app, P1, P2, P3, P4.
  - destruct (emits_run _ _ _ _ _ _ (Hprobe _) Hp) as (e1 & E1 & P1).
    destruct (emits_run _ _ _ _ _ _ (Hinit _) Hi) as (e2 & E2 & P2).
    destruct (emits_run _ _ _ _ _ _ (Hclose _) Hc) as (e3 & E3 & P3).
    destruct (emits_run _ _ _ _ _ _ (Hsn _) Hs) as (e4 & E4 & P4).
    destruct (emits_run _ _ _ _ _ _ (Hver _) Hv) as (e5 & E5 & P5).
    rewrite E5, E4, E3, E2, E1. eexists. rewrite <- !app_assoc.
    split; [reflexivity |].
    apply Hnone. now rewrite !forallb_app, P1, P2, P3, P4, P5.
Qed.

(** X19: the methods need an opened port.  On an object whose port was
    not opened, or failed to open, each of the four methods that use the
    port raises [AttributeError] before any call reaches the system;
    [close_can_channel] does not turn it into [False]. *)
Theorem X19_methods_need_an_open_port (self : UsbCan Handle) st :
  ser_port self = None ->
  close_can_channel os self st = (Raise AttributeError, st) /\
  get_serial_number os self st = (Raise AttributeError, st) /\
  get_version_info os self st = (Raise AttributeError, st) /\
  close os self st = (Raise AttributeError, st).
Proof.
  intros H.
  unfold close_can_channel, get_serial_number, get_version_info, close,
    ser_port_write, on_ser_port, bind, try_except.
  rewrite H. repeat split.
Qed.

(** X20: the advisory probes come first and are not guarded.  Off Linux
    the check of a port starts by opening it.  On Linux the port is
    looked up and [lsof] is run before; when the [lsof] program cannot be
    run, the check ends by that exception and the port is never
    opened. *)
Theorem X20_probes_come_before_the_port item st :
  (is_linux os = false ->
   linux_probes os (UsbCan_init item) st = (Ok tt, st)) /\
  (is_linux os = true ->
   forall ports w e w2,
     list_ports_grep os item (world st) = (Ok ports, w) ->
     popen_stdout os ["lsof"] w = (Raise e, w2) ->
     check_device os item st =
       (Raise e,
        after st w2
          (EvGrep item ::
           map EvPrint
             (flat_map (fun entry => if String.eqb (device entry) item
                                     then find_port_lines entry else []) ports) ++
           [EvSpawn ["lsof"]])%list)).
Proof.
  split.
  - intros Hl. unfold linux_probes. now rewrite Hl.
  - intros Hl ports w e w2 Hg Hs.
    assert (Hfind : find_port os item st =
              (Ok tt,
               after st w
                 (EvGrep item ::
                  map EvPrint
                    (flat_map (fun entry => if String.eqb (device entry) item
                                            then find_port_lines entry else [])
                       ports)))).
    { unfold find_port, bind at 1, os_call. rewrite Hg. cbn [fst snd].
      rewrite for_each_find_port. unfold after. cbn [trace world].
      rewrite <- app_assoc. reflexivity. }
    unfold check_device.
    apply bind_raise. unfold linux_probes. rewrite Hl.
    rewrite (bind_ok _ _ _ _ _ Hfind).
    unfold lsof, bind at 1, os_call. cbn [world after]. rewrite Hs.
    cbn [fst snd after trace]. unfold after. cbn [trace world].
    rewrite <- app_assoc. reflexivity.
Qed.

End Generic.

(** ** The properties on the scripted systems *)

Lemma X1_init_serial_port_outcomes_witness :
  init_serial_port (mock_os (bench unopenable_device)) (UsbCan_init ttyUSB0) initial =
    (Ok (false, UsbCan_init ttyUSB0),
     after initial [] [EvOpen ttyUSB0; EvPrint "broken pipe"]) /\
  fst (init_serial_port (mock_os (bench healthy_device)) (UsbCan_init ttyUSB0) initial)
    = Ok (true, opened ttyUSB0).
Proof.
  split.
  - apply (proj1 (proj2 (X1_init_serial_port_outcomes
                           (mock_os (bench unopenable_device))
                           (UsbCan_init ttyUSB0) initial))
             (BrokenPipeError "broken pipe") [] "broken pipe"); reflexivity.
  - rewrite (proj1 (X1_init_serial_port_outcomes (mock_os (bench healthy_device))
                      (UsbCan_init ttyUSB0) initial) ttyUSB0 [] eq_refl).
    reflexivity.
Defined.

Lemma X2_get_version_info_unframes_witness :
  fst (get_version_info (mock_os (bench healthy_device)) (opened ttyUSB0) initial)
    = Ok (Some (encode_ascii "1234")).
Proof.
  exact (f_equal fst
           (X2_get_version_info_unframes (mock_os (bench healthy_device))
              (opened ttyUSB0) ttyUSB0 initial
              [(ttyUSB0, Ok (framed "V1234"))] (encode_ascii "1234")
              [(ttyUSB0, Ok []); (ttyUSB0, Ok (framed "V1234"))]
              eq_refl eq_refl eq_refl)).
Defined.

Lemma X3_get_serial_number_drops_a_byte_witness :
  fst (get_serial_number (mock_os (bench healthy_device)) (opened ttyUSB0) initial)
    = Ok (Some (removelast (encode_ascii "1234567890"))) /\
  List.length (removelast (encode_ascii "1234567890")) = 9%nat.
Proof.
  destruct (X3_get_serial_number_drops_a_byte (mock_os (bench healthy_device))
              (opened ttyUSB0) ttyUSB0 initial
              [(ttyUSB0, Ok (framed "N1234567890"))] (encode_ascii "1234567890")
              [(ttyUSB0, Ok []); (ttyUSB0, Ok (framed "N1234567890"))]
              eq_refl eq_refl eq_refl) as [Hrun Hlen].
  split; [exact (f_equal fst Hrun) | exact Hlen].
Defined.

Lemma X4_framed_queries_guard_the_write_only_witness :
  fst (get_serial_number (mock_os (bench unreadable_device)) (opened ttyUSB0) initial)
    = Raise (SerialException "read failed") /\
  fst (get_version_info (mock_os (bench broken_device)) (opened ttyUSB0) initial)
    = Ok None.
Proof.
  split.
  - exact (f_equal fst
             (proj1 (X4_framed_queries_guard_the_write_only
                       (mock_os (bench unreadable_device))
                       (opened ttyUSB0) ttyUSB0 initial eq_refl)
                [(ttyUSB0, Raise (SerialException "read failed"))]
                (SerialException "read failed")
                [(ttyUSB0, Raise (SerialException "read failed"))]
                eq_refl eq_refl)).
  - exact (f_equal fst
             (proj2 (proj2 (proj2 (X4_framed_queries_guard_the_write_only
                                     (mock_os (bench broken_device))
                                     (opened ttyUSB0) ttyUSB0 initial eq_refl)))
                (SerialException "write failed") [] eq_refl)).
Defined.

Lemma X5_value_only_from_framed_reply_witness :
  exists w1 w2,
    serial_write (mock_os (bench healthy_device)) ttyUSB0 (command "V"%byte)
      (world initial) = (Ok tt, w1) /\
    serial_read (mock_os (bench healthy_device)) ttyUSB0 6 w1 =
      (Ok ("V"%byte :: encode_ascii "1234" ++ [CR])%list, w2).
Proof.
  apply (proj2 (X5_value_only_from_framed_reply (mock_os (bench healthy_device))
                  (opened ttyUSB0) ttyUSB0 initial eq_refl)
           (encode_ascii "1234")).
  reflexivity.
Defined.

Lemma X6_empty_payload_counts_as_failure_witness :
  fst (get_serial_number (mock_os (bench tiny_device)) (opened ttyUSB0)
         (snd (close_can_channel (mock_os (bench tiny_device)) (opened ttyUSB0)
                 (after initial [] [EvOpen ttyUSB0]))))
    = Ok (Some []) /\
  fst (for_each [ttyUSB0; ttyUSB1] (check_device (mock_os (bench tiny_device))) initial)
    = Raise (SystemExit 1).
Proof.
  edestruct (X6_empty_payload_counts_as_failure (mock_os (bench tiny_device))
               ttyUSB0 [ttyUSB1] initial initial ttyUSB0 []) as [Hcase _];
    [reflexivity .. |].
  edestruct (Hcase [(ttyUSB0, Ok (framed "N1"));
                    (ttyUSB0, Ok []); (ttyUSB0, Ok [CR])]
               (encode_ascii "1")) as [Hsn Hrun];
    [reflexivity | reflexivity | cbn; lia |].
  split; [exact Hsn | exact (f_equal fst Hrun)].
Defined.

Lemma X7_decode_version_needs_four_digits_witness :
  is_Ok (decode_version (Some (encode_ascii "12"))) =
  well_formed_payload (encode_ascii "12").
Proof.
  apply X7_decode_version_needs_four_digits. cbn. lia.
Defined.

Lemma X8_healthy_device_passes_witness :
  fst (check_device (mock_os (bench healthy_device)) ttyUSB0 initial) = Ok tt /\
  printed (trace (snd (check_device (mock_os (bench healthy_device)) ttyUSB0 initial)))
    = ["Found VSCAN device with the following info:";
       "/dev/ttyUSB0 -> (SN: 123456789, FW: 3:4, HW: 1:2)"].
Proof.
  epose proof (X8_healthy_device_passes (mock_os (bench healthy_device))
                 ttyUSB0 [ttyUSB1] initial initial ttyUSB0 [] _ CR _ _
                 (encode_ascii "1234567890") _ "123456789" _
                 "1"%byte "2"%byte "3"%byte "4"%byte _ _) as H.
  edestruct H as (Hrun & _ & _);
    [reflexivity | reflexivity | reflexivity | reflexivity | now left
     | reflexivity | reflexivity | cbn; lia | reflexivity | reflexivity
     | reflexivity | reflexivity | reflexivity |].
  rewrite Hrun. split; reflexivity.
Defined.

Lemma X9_main_targets_witness :
  main (mock_os two_ports) ttyUSB1 initial =
    for_each [ttyUSB1] (check_device (mock_os two_ports)) initial /\
  main (mock_os two_ports) "all" initial =
    for_each [ttyUSB0; ttyUSB1] (check_device (mock_os two_ports))
      (after initial [] [EvGrep "0403:6015"]).
Proof.
  destruct (X9_main_targets (mock_os two_ports)) as [Hone Hall].
  split.
  - apply Hone. reflexivity.
  - apply (Hall initial
             {| device := ttyUSB0; description := "USB-CAN Plus" |}
             [ {| device := ttyUSB1; description := "USB-CAN Plus" |} ] []).
    reflexivity.
Defined.

Lemma X10_no_device_found_witness :
  main (mock_os (bench healthy_device)) "all" initial =
    (Ok tt,
     after initial [] [EvGrep "0403:6015"; EvPrint "No USB-CAN devices found"]) /\
  printed (trace (snd (main (mock_os (linux_box (Some []))) "all" initial))) =
    ["No USB-CAN devices found"; "FTDI driver is not available"].
Proof.
  split.
  - apply (proj1 (X10_no_device_found (mock_os (bench healthy_device)) initial []
                    eq_refl)).
    reflexivity.
  - edestruct (X10_no_device_found (mock_os (linux_box (Some []))) initial []
                 eq_refl) as [_ Hlinux].
    destruct (Hlinux eq_refl) as (_ & Hfalse & _).
    rewrite (Hfalse _ eq_refl). reflexivity.
Defined.

Lemma X11_driver_check_steps_witness :
  trace (snd (find_ftdi_driver (mock_os (linux_host healthy_device ftdi_lsmod_output))
                initial))
    = [EvSpawn ["lsmod"]; EvPrint "ftdi_sio is loaded"] /\
  printed (trace (snd (find_ftdi_driver
                         (mock_os (linux_host healthy_device lsmod_output)) initial)))
    = ["ftdi_sio could be found in /lib/modules"].
Proof.
  split.
  - rewrite (proj1 (X11_driver_check_steps
                      (mock_os (linux_host healthy_device ftdi_lsmod_output))
                      initial _ _ eq_refl) eq_refl).
    reflexivity.
  - edestruct (proj2 (X11_driver_check_steps
                        (mock_os (linux_host healthy_device lsmod_output))
                        initial _ _ eq_refl) eq_refl
                 uname_output [] "6.1.0-13-amd64" eq_refl eq_refl) as [Hfile _].
    rewrite (Hfile eq_refl). reflexivity.
Defined.

Lemma X12_check_lsmod_searches_whole_output_witness :
  fst (check_lsmod (mock_os (linux_host healthy_device ftdi_lsmod_output)) initial)
    = Ok true /\
  fst (check_lsmod (mock_os (linux_host healthy_device lsmod_output)) initial)
    = Ok false.
Proof.
  split.
  - rewrite (proj1 (X12_check_lsmod_searches_whole_output
                      (mock_os (linux_host healthy_device ftdi_lsmod_output))
                      initial ftdi_lsmod_output [] eq_refl) _ eq_refl).
    reflexivity.
  - rewrite (proj1 (X12_check_lsmod_searches_whole_output
                      (mock_os (linux_host healthy_device lsmod_output))
                      initial lsmod_output [] eq_refl) _ eq_refl).
    reflexivity.
Defined.


Lemma X14_find_port_reports_exact_matches_witness :
  printed (trace (snd (find_port (mock_os (linux_host healthy_device lsmod_output))
                         ttyUSB0 initial)))
    = ["Serial port found: /dev/ttyUSB0 - USB-CAN Plus";
       "This device has a correct description"] /\
  printed (trace (snd (find_port (mock_os (linux_host healthy_device lsmod_output))
                         ttyUSB1 initial))) = [].
Proof.
  split.
  - rewrite (proj1 (X14_find_port_reports_exact_matches
                      (mock_os (linux_host healthy_device lsmod_output))
                      ttyUSB0 initial _ [] eq_refl)).
    reflexivity.
  - rewrite (proj2 (X14_find_port_reports_exact_matches
                      (mock_os (linux_host healthy_device lsmod_output))
                      ttyUSB1 initial _ [] eq_refl) eq_refl).
    reflexivity.
Defined.

Lemma X16_failed_check_never_closes_witness :
  exists evs,
    trace (snd (check_device (mock_os two_ports) ttyUSB0 initial)) =
      (trace initial ++ evs)%list /\
    existsb is_close evs = false.
Proof.
  eapply (X16_failed_check_never_closes (mock_os two_ports) ttyUSB0 initial).
  eapply failed_serial_number; reflexivity.
Defined.

Lemma X19_methods_need_an_open_port_witness :
  fst (close_can_channel (mock_os (bench healthy_device)) (UsbCan_init ttyUSB0) initial)
    = Raise AttributeError.
Proof.
  now rewrite (proj1 (X19_methods_need_an_open_port (mock_os (bench healthy_device))
                        (UsbCan_init ttyUSB0) initial eq_refl)).
Defined.

Lemma X20_probes_come_before_the_port_witness :
  fst (check_device (mock_os (linux_box (Some []))) ttyUSB0 initial)
    = Raise (FileNotFoundError "lsof") /\
  existsb (on_port ttyUSB0)
    (trace (snd (check_device (mock_os (linux_box (Some []))) ttyUSB0 initial)))
    = false.
Proof.
  rewrite (proj2 (X20_probes_come_before_the_port (mock_os (linux_box (Some [])))
                    ttyUSB0 initial) eq_refl [] [] (FileNotFoundError "lsof") []
             eq_refl eq_refl).
  split; reflexivity.
Defined.

End TesterExtras.

(** ** Further properties of the frame dump tool *)

Module DumpExtras.
Import Py Vscandump DumpProofs.

(** ** The output as a whole *)

Lemma lines_of_app frames more :
  lines_of (frames ++ more) = lines_of frames ++ lines_of more.
Proof.
  induction frames as [|msg frames IH]; [reflexivity |].
  simpl. rewrite IH. now rewrite append_assoc.
Qed.

Lemma lines_of_count frames :
  count_newlines (lines_of frames) = List.length frames.
Proof.
  induction frames as [|msg frames IH]; [reflexivity |].
  simpl. now rewrite count_newlines_app, print_output_one_line, IH.
Qed.

(** X17: the dump is append-only and has one line per frame.  When the
    loop has received some frames it waits in [bus.recv()] and its output
    holds as many line ends as frames received; receiving more frames
    leaves what was written in place and adds their lines after it. *)
Theorem X17_dump_output_grows_by_lines frames more s s' :
  receive_all start frames = Some s ->
  receive_all start (frames ++ more) = Some s' ->
  pc s = InRecv /\
  count_newlines (stdout s) = List.length frames /\
  stdout s' = stdout s ++ lines_of more /\
  count_newlines (stdout s') = (List.length frames + List.length more)%nat.
Proof.
  unfold start. rewrite !receive_all_from_head. cbn [append].
  intros [= <-] [= <-]. cbn [pc stdout].
  rewrite lines_of_app, count_newlines_app, !lines_of_count. repeat split.
Qed.

(** ** Reading a line back *)

Lemma split_at_upper_digits d r :
  split_at " " (upper_digits d ++ String " " r) = Some (upper_digits d, r).
Proof.
  induction d; cbn [upper_digits append split_at Ascii.eqb Bool.eqb];
    try rewrite IHd; reflexivity.
Qed.

Lemma split_at_decimal d r :
  split_at "]" (NilEmpty.string_of_uint d ++ String "]" r)
    = Some (NilEmpty.string_of_uint d, r).
Proof.
  induction d; cbn [NilEmpty.string_of_uint append split_at Ascii.eqb Bool.eqb];
    try rewrite IHd; reflexivity.
Qed.

Lemma format_02X_digits b :
  exists c1 c2,
    format_02X (Byte.to_N b) = String c1 (String c2 EmptyString) /\
    byte_of_digits c1 c2 = Some b.
Proof. destruct b; do 2 eexists; split; vm_compute; reflexivity. Qed.

Lemma read_payload_join payload : read_payload (join_bytes payload) = Some payload.
Proof.
  induction payload as [|b rest IH]; [reflexivity |].
  destruct (format_02X_digits b) as (c1 & c2 & E & Hb).
  cbn [join_bytes]. rewrite E. cbn [append read_payload Ascii.eqb Bool.eqb].
  now rewrite Hb, IH.
Qed.

Lemma read_line_dump_text msg : read_line (dump_text msg) = Some msg.
Proof.
  destruct msg as [i n d]. unfold read_line, dump_text, format_X, format_d.
  cbn [arbitration_id dlc data append].
  rewrite split_at_upper_digits, split_at_decimal.
  change (upper_digits (N.to_hex_uint i)) with (format_X i).
  change (NilEmpty.string_of_uint (N.to_uint n)) with (format_d n).
  now rewrite format_X_value, format_d_value, read_payload_join.
Qed.

(** X18: a line of the dump tells the frame.  The identifier, the length
    code and the payload can be read back from the text printed for a
    frame, so two frames that differ in any of the three print different
    lines. *)
Theorem X18_dump_line_determines_frame :
  (forall msg, read_line (dump_text msg) = Some msg) /\
  (forall m1 m2, dump_text m1 = dump_text m2 -> m1 = m2).
Proof.
  split; [exact read_line_dump_text |].
  intros m1 m2 H.
  pose proof (read_line_dump_text m1) as H1. rewrite H, read_line_dump_text in H1.
  now injection H1.
Qed.

Lemma X17_dump_output_grows_by_lines_witness :
  count_newlines
    (lines_of [ {| arbitration_id := 427; dlc := 2; data := [x0a; xff] |} ]) = 1%nat.
Proof.
  destruct (X17_dump_output_grows_by_lines
              [ {| arbitration_id := 427; dlc := 2; data := [x0a; xff] |} ] []
              {| pc := InRecv;
                 stdout := lines_of [ {| arbitration_id := 427; dlc := 2;
                                         data := [x0a; xff] |} ] |}
              {| pc := InRecv;
                 stdout := lines_of [ {| arbitration_id := 427; dlc := 2;
                                         data := [x0a; xff] |} ] |}
              eq_refl eq_refl) as (_ & Hcount & _).
  exact Hcount.
Defined.

Lemma X18_dump_line_determines_frame_witness :
  read_line "1AB [2] 0A FF " =
    Some {| arbitration_id := 427; dlc := 2; data := [x0a; xff] |} /\
  {| arbitration_id := 427; dlc := 2; data := [x0a] ++ [xff] |} =
  {| arbitration_id := 427; dlc := 1 + 1; data := [x0a; xff] |}.
Proof.
  split.
  - exact (proj1 X18_dump_line_determines_frame
             {| arbitration_id := 427; dlc := 2; data := [x0a; xff] |}).
  - apply (proj2 X18_dump_line_determines_frame). reflexivity.
Defined.

End DumpExtras.
